(** * YouTube channel analytics: feature derivation and hypothesis tests

    A shallow embedding of [youtube_channel_analytics.py]:
    - [YouTubeDataProcessor]: [duration_to_seconds], [categorize_video_type]
      and [process_dataframe];
    - [YouTubeAnalytics]: [analyze_keyword_frequency],
      [test_day_of_week_hypothesis] and [test_tutorial_vs_career_hypothesis];
      also [analyze_top_videos], [test_duration_engagement_hypothesis] and
      the ANOVA of [compare_video_categories];
    - [YouTubeDataExtractor]: [get_upload_playlist_id], [get_all_video_ids]
      and [get_video_details], with the extraction step and the summary of
      [main].

    Modelling conventions.
    - A Python [str] is a [string]; its characters are the code points
      0..255 (Latin-1).  On that range [\d] is exactly ['0'..'9'], and
      [str.lower] and [\w] are written out in full below.
    - A Python [int] is a [Z].
    - A float64 is a [pyfloat]: an exact rational, an infinity or NaN.  The
      arithmetic the program itself performs on floats (a quotient of two
      integer counts, a mean of integer counts, [len * top_percentile]) is
      taken exactly; the values produced by scipy and statsmodels are not
      computed but received as answers to library calls (see [Prog]).
    - A pandas [DataFrame] is a finite map from column names to columns, and
      lives in a store of objects, since [process_dataframe] updates the
      frame it is given.
    - The YouTube API client is a record of functions, one per request,
      each answering with a response or an exception; a loop that waits on
      the answers of the API takes the number of requests it may make. *)

From Stdlib Require Import ZArith QArith Qround Lqa List String Ascii Bool Lia.
From Stdlib Require Import Sorted Permutation.
From stdpp Require Import gmap strings list fin_maps.

Local Open Scope Z_scope.

(* ===================================================================== *)
(** * Python strings and the regular expressions the program uses *)
(* ===================================================================== *)

Module PyStr.

(** [\d] on Latin-1 text. *)
Definition is_digit (c : ascii) : bool :=
  let n := N_of_ascii c in ((48 <=? n) && (n <=? 57))%N.

Definition digit_value (c : ascii) : Z := Z.of_N (N_of_ascii c) - 48.

(** [int(s)] for a run of decimal digits, most significant first. *)
Fixpoint int_acc (acc : Z) (s : string) : Z :=
  match s with
  | EmptyString => acc
  | String c s' => int_acc (10 * acc + digit_value c) s'
  end.

Definition int (s : string) : Z := int_acc 0 s.

(** The pattern [(\d+)U] anchored at the head of [s], for a unit marker
    [U]; the result is [group(1)].  [\d+] is greedy: it first tries to
    take one more digit, and gives digits back only when the rest of the
    pattern fails. *)
Fixpoint digits_then (u : ascii) (s : string) : option string :=
  match s with
  | EmptyString => None
  | String c s' =>
      if is_digit c then
        match digits_then u s' with
        | Some g => Some (String c g)
        | None =>
            match s' with
            | String c' _ => if Ascii.eqb c' u then Some (String c EmptyString) else None
            | EmptyString => None
            end
        end
      else None
  end.

(** [re.search(r'(\d+)U', s)]: the match at the leftmost position that
    has one; [None] when no position has. *)
Fixpoint re_search (u : ascii) (s : string) : option string :=
  match digits_then u s with
  | Some g => Some g
  | None =>
      match s with
      | EmptyString => None
      | String _ s' => re_search u s'
      end
  end.

Fixpoint all_digits (s : string) : bool :=
  match s with
  | EmptyString => true
  | String c s' => is_digit c && all_digits s'
  end.

Fixpoint no_digit (s : string) : bool :=
  match s with
  | EmptyString => true
  | String c s' => negb (is_digit c) && no_digit s'
  end.



(** What may follow a run of digits without completing [(\d+)u]. *)
Definition stops (u : ascii) (t : string) : bool :=
  match t with
  | EmptyString => true
  | String c _ => negb (is_digit c) && negb (Ascii.eqb c u)
  end.

(** [str.lower] on Latin-1 text: A-Z and the accented capitals
    U+00C0..U+00DE (the multiplication sign U+00D7 apart) move up by 32. *)
Definition lower_char (c : ascii) : ascii :=
  let n := N_of_ascii c in
  if (((65 <=? n) && (n <=? 90))
      || ((192 <=? n) && (n <=? 222) && negb (n =? 215)))%N
  then ascii_of_N (n + 32) else c.

Fixpoint lower (s : string) : string :=
  match s with
  | EmptyString => EmptyString
  | String c s' => String (lower_char c) (lower s')
  end.

Fixpoint startswith (p s : string) : bool :=
  match p, s with
  | EmptyString, _ => true
  | String a p', String b s' => Ascii.eqb a b && startswith p' s'
  | String _ _, EmptyString => false
  end.

(** [p in s] for strings: [p] occurs in [s] at some position. *)
Fixpoint contains (p s : string) : bool :=
  startswith p s
  || match s with
     | EmptyString => false
     | String _ s' => contains p s'
     end.

(** [\w] on Latin-1 text: ASCII letters, digits and the underscore, and the
    Latin-1 letters and numeric signs. *)
Definition is_word (c : ascii) : bool :=
  let n := N_of_ascii c in
  (((48 <=? n) && (n <=? 57)) || ((65 <=? n) && (n <=? 90))
   || ((97 <=? n) && (n <=? 122)) || (n =? 95)
   || (n =? 170) || (n =? 178) || (n =? 179) || (n =? 181)
   || (n =? 185) || (n =? 186) || ((188 <=? n) && (n <=? 190))
   || ((192 <=? n) && (n <=? 214)) || ((216 <=? n) && (n <=? 246))
   || (248 <=? n))%N.

Definition flush (cur : string) : list string :=
  match cur with EmptyString => [] | _ => [cur] end.

(** [re.findall(r'\b\w+\b', s)]: the maximal runs of word characters of
    [s], left to right.  ([\w+] is greedy and a shorter run cannot end at a
    word boundary, so each match is a whole run.)  [cur] is the run being
    read. *)
Fixpoint findall_words_go (cur : string) (s : string) : list string :=
  match s with
  | EmptyString => flush cur
  | String c s' =>
      if is_word c then findall_words_go (cur +:+ String c EmptyString) s'
      else flush cur ++ findall_words_go EmptyString s'
  end.

Definition findall_words (s : string) : list string := findall_words_go EmptyString s.

End PyStr.

(* ===================================================================== *)
(** * Floats, library calls and data frames *)
(* ===================================================================== *)

(** A float64 value. *)
Inductive pyfloat :=
| Fin (q : Q)
| PosInf
| NegInf
| NaN.

Module PyFloat.

(** [x < y]; false as soon as one side is NaN. *)
Definition lt (x y : pyfloat) : bool :=
  match x, y with
  | NaN, _ | _, NaN => false
  | _, NegInf => false
  | NegInf, _ => true
  | PosInf, _ => false
  | Fin _, PosInf => true
  | Fin a, Fin b => negb (Qle_bool b a)
  end.

Definition gt (x y : pyfloat) : bool := lt y x.

Definition isnan (x : pyfloat) : bool :=
  match x with NaN => true | _ => false end.

(** True division of two integers, as numpy does it on int64 columns: no
    exception, a zero divisor gives an infinity or NaN. *)
Definition truediv (a b : Z) : pyfloat :=
  if b =? 0 then (if a =? 0 then NaN else if 0 <? a then PosInf else NegInf)
  else Fin (Qred (inject_Z a / inject_Z b)).

(** [int(x)] for a finite float: truncation toward zero. *)
Definition trunc (q : Q) : Z := Z.quot (Qnum q) (Zpos (Qden q)).

(** The mean of an int64 array; NaN for the empty array. *)
Definition mean (l : list Z) : pyfloat :=
  truediv (fold_right Z.add 0 l) (Z.of_nat (length l)).

End PyFloat.

(** A pandas Timestamp, as far as the program reads it: the attributes
    [dayofweek], [day_name()], [month], [year], and the text of
    [to_period('Q')]. *)
Record Timestamp := {
  ts_dayofweek : Z;
  ts_day_name : string;
  ts_month : Z;
  ts_year : Z;
  ts_quarter : string
}.

(** The calls into pandas, scipy and statsmodels whose results the program
    does not compute itself.  [ttest_ind] carries its [equal_var] argument
    and [mannwhitneyu] its [alternative]. *)
Inductive lib : Type -> Type :=
| to_datetime (s : string) : lib Timestamp
| f_oneway (samples : list (list Z)) : lib (pyfloat * pyfloat)
| pairwise_tukeyhsd (endog groups : list Z) (alpha : Q) : lib string
| ttest_ind (a b : list Z) (equal_var : bool) : lib (pyfloat * pyfloat)
| mannwhitneyu (x y : list Z) (alternative : string) : lib (pyfloat * pyfloat).

Inductive exn :=
| KeyError (key : string)
| TypeError
| LibraryError (msg : string).

(** A program: it returns, raises, or calls a library and goes on with the
    answer. *)
Inductive Prog (A : Type) : Type :=
| Ret (a : A)
| Raise (e : exn)
| Call (R : Type) (c : lib R) (k : R -> Prog A).

Arguments Ret {A} a.
Arguments Raise {A} e.
Arguments Call {A R} c k.

Fixpoint bind {A B : Type} (m : Prog A) (f : A -> Prog B) : Prog B :=
  match m with
  | Ret a => f a
  | Raise e => Raise e
  | Call c k => Call c (fun r => bind (k r) f)
  end.

Definition call {R : Type} (c : lib R) : Prog R := Call c Ret.

(** The library as the program meets it: each call is answered with a value
    or with an exception. *)
Definition handler : Type := forall R : Type, lib R -> exn + R.

Fixpoint run {A : Type} (h : handler) (m : Prog A) : exn + A :=
  match m with
  | Ret a => inr a
  | Raise e => inl e
  | Call c k =>
      match h _ c with
      | inl e => inl e
      | inr r => run h (k r)
      end
  end.

(** The library calls a program makes under [h], in order. *)
Inductive called : Type := Called (R : Type) (c : lib R).

Arguments Called {R} c.

Fixpoint trace {A : Type} (h : handler) (m : Prog A) : list called :=
  match m with
  | Ret _ | Raise _ => []
  | Call c k =>
      Called c :: match h _ c with
                  | inl _ => []
                  | inr r => trace h (k r)
                  end
  end.

Fixpoint mapM {A B : Type} (f : A -> Prog B) (l : list A) : Prog (list B) :=
  match l with
  | [] => Ret []
  | x :: l' => bind (f x) (fun y => bind (mapM f l') (fun ys => Ret (y :: ys)))
  end.

(** A column, with its dtype. *)
Inductive Series :=
| SInt (l : list Z)
| SFloat (l : list pyfloat)
| SStr (l : list string)
| STags (l : list (list string))
| STime (l : list Timestamp)
| SCat (l : list (option string)).

(** A data frame: the number of rows and the columns by name.  In a
    well-formed frame every column has [df_len] entries. *)
Record DataFrame := {
  df_len : nat;
  df_columns : gmap string Series
}.

Module Pandas.

(** [df[name]] *)
Definition column (df : DataFrame) (name : string) : Prog Series :=
  match df_columns df !! name with
  | Some s => Ret s
  | None => Raise (KeyError name)
  end.

Definition as_int (s : Series) : Prog (list Z) :=
  match s with SInt l => Ret l | _ => Raise TypeError end.

Definition as_str (s : Series) : Prog (list string) :=
  match s with SStr l => Ret l | _ => Raise TypeError end.

Definition as_float (s : Series) : Prog (list pyfloat) :=
  match s with SFloat l => Ret l | _ => Raise TypeError end.

Definition as_time (s : Series) : Prog (list Timestamp) :=
  match s with STime l => Ret l | _ => Raise TypeError end.

(** [s.mean()] where the value is only printed with a float format: a
    numeric column is needed, the mean itself is not kept. *)
Definition mean_printed (s : Series) : Prog unit :=
  match s with
  | SInt _ | SFloat _ => Ret tt
  | _ => Raise TypeError
  end.

(** [df[name] = s] on the frame value. *)
Definition assign (df : DataFrame) (name : string) (s : Series) : DataFrame :=
  {| df_len := df_len df; df_columns := <[name := s]> (df_columns df) |}.

(** [s.replace(a, b)] on an int64 column. *)
Definition replace (a b : Z) (l : list Z) : list Z :=
  map (fun x => if x =? a then b else x) l.

(** Elementwise operations on two columns of one frame. *)
Fixpoint zip_with {A B C : Type} (f : A -> B -> C) (l : list A) (l' : list B) : list C :=
  match l, l' with
  | x :: l, y :: l' => f x y :: zip_with f l l'
  | _, _ => []
  end.

(** [numpy.searchsorted(bins, x, side='left')] on increasing [bins]: the
    number of edges strictly below [x]. *)
Fixpoint searchsorted_left (bins : list pyfloat) (x : pyfloat) : nat :=
  match bins with
  | [] => O
  | b :: bins' => if PyFloat.lt b x then S (searchsorted_left bins' x) else O
  end.

(** [pd.cut(x, bins, labels)] with its defaults [right=True] and
    [include_lowest=False]: a value is placed by [searchsorted], and is
    missing when it is NaN or falls at or below the first edge or beyond
    the last. *)
Definition cut (bins : list pyfloat) (labels : list string) (x : pyfloat)
  : option string :=
  let i := searchsorted_left bins x in
  if PyFloat.isnan x || Nat.eqb i (length bins) || Nat.eqb i O then None
  else nth_error labels (i - 1).

(** Selection by a boolean mask: [s[mask]]. *)
Fixpoint select {A : Type} (mask : list bool) (l : list A) : list A :=
  match mask, l with
  | b :: mask', x :: l' => if b then x :: select mask' l' else select mask' l'
  | _, _ => []
  end.

Definition series_select (mask : list bool) (s : Series) : Series :=
  match s with
  | SInt l => SInt (select mask l) | SFloat l => SFloat (select mask l)
  | SStr l => SStr (select mask l) | STags l => STags (select mask l)
  | STime l => STime (select mask l) | SCat l => SCat (select mask l)
  end.

(** [df[mask]]: a new frame with the rows where the mask holds. *)
Definition df_select (mask : list bool) (df : DataFrame) : DataFrame :=
  {| df_len := length (List.filter (fun b : bool => b) mask);
     df_columns := series_select mask <$> df_columns df |}.

(** Rows picked by position, in the order given. *)
Definition take_rows {A : Type} (rows : list nat) (l : list A) : list A :=
  omap (fun i => l !! i) rows.

Definition series_take (rows : list nat) (s : Series) : Series :=
  match s with
  | SInt l => SInt (take_rows rows l) | SFloat l => SFloat (take_rows rows l)
  | SStr l => SStr (take_rows rows l) | STags l => STags (take_rows rows l)
  | STime l => STime (take_rows rows l) | SCat l => SCat (take_rows rows l)
  end.

(** Stable ordering by decreasing key: an element goes behind those whose
    key is at least its own. *)
Fixpoint insert_desc {A : Type} (x : A * Z) (l : list (A * Z)) : list (A * Z) :=
  match l with
  | [] => [x]
  | y :: l' => if snd y <? snd x then x :: y :: l' else y :: insert_desc x l'
  end.

Definition sort_desc {A : Type} (l : list (A * Z)) : list (A * Z) :=
  fold_left (fun acc x => insert_desc x acc) l [].

(** [df.nlargest(n, name)] on an int64 column: the first [n] rows in
    decreasing order of the column, rows with equal values in their
    original order ([keep='first']); no row for [n <= 0]. *)
Definition nlargest (n : Z) (name : string) (df : DataFrame) : Prog DataFrame :=
  bind (column df name) (fun s =>
  bind (as_int s) (fun keys =>
  let order := map fst (sort_desc (zip_with pair (seq 0 (length keys)) keys)) in
  let rows := firstn (Z.to_nat n) order in
  Ret {| df_len := length rows;
         df_columns := series_take rows <$> df_columns df |})).



(** [Series.unique()] on a column of strings: the values, each once, in
    the order in which they first appear. *)
Fixpoint unique (l : list string) : list string :=
  match l with
  | [] => []
  | x :: l' => x :: List.filter (fun y => negb (String.eqb y x)) (unique l')
  end.

End Pandas.

(** The store of data frame objects, by address.  A Python variable that
    holds a frame holds its address. *)
Abbreviation store := (gmap positive DataFrame).

(** A statement over the store. *)
Definition St (A : Type) : Type := store -> Prog (A * store).

Definition st_ret {A : Type} (a : A) : St A := fun σ => Ret (a, σ).

Definition st_bind {A B : Type} (m : St A) (f : A -> St B) : St B :=
  fun σ => bind (m σ) (fun '(a, σ') => f a σ').

Definition lift {A : Type} (p : Prog A) : St A :=
  fun σ => bind p (fun a => Ret (a, σ)).

Declare Scope st_scope.
Delimit Scope st_scope with st.
Notation "x <- m ;; k" := (st_bind m (fun x => k))
  (at level 100, m at next level, right associativity) : st_scope.
Notation "m ;; k" := (st_bind m (fun _ => k))
  (at level 100, right associativity) : st_scope.

(** Running a statement from a store. *)
Definition exec {A : Type} (h : handler) (m : St A) (σ : store) : exn + (A * store) :=
  run h (m σ).

(** [df[name]], for a frame held in the store. *)
Definition getitem (df : positive) (name : string) : St Series :=
  fun σ =>
    match σ !! df with
    | Some d => bind (Pandas.column d name) (fun s => Ret (s, σ))
    | None => Raise TypeError
    end.

(** [df[name] = s]: the frame object itself is updated. *)
Definition setitem (df : positive) (name : string) (s : Series) : St unit :=
  fun σ =>
    match σ !! df with
    | Some d => Ret (tt, <[df := Pandas.assign d name s]> σ)
    | None => Raise TypeError
    end.

(* ===================================================================== *)
(** * YouTubeDataProcessor *)
(* ===================================================================== *)

Module YouTubeDataProcessor.
Import PyStr.

Definition duration_to_seconds (duration : string) : Z :=
  let hours := re_search "H" duration in
  let minutes := re_search "M" duration in
  let seconds := re_search "S" duration in
  let total := 0 in
  let total := match hours with Some g => total + int g * 3600 | None => total end in
  let total := match minutes with Some g => total + int g * 60 | None => total end in
  let total := match seconds with Some g => total + int g | None => total end in
  total.


(** The [categories] dict; a Python dict iterates in insertion order. *)
Definition categories : list (string * list string) :=
  [ ("Tutorial", ["tutorial"; "how to"; "guide"; "learn"; "beginner";
                  "advanced"; "intermediate"; "basics"; "step by step";
                  "complete"; "full course"; "training"]);
    ("Career", ["career"; "job"; "salary"; "interview"; "resume"; "hiring";
                "work"; "employment"; "promotion"; "cv"; "recruiter"]);
    ("Project", ["project"; "portfolio"; "bootcamp"; "full project";
                 "hands-on"; "practical"; "real world"]);
    ("Tools", ["excel"; "sql"; "python"; "tableau"; "power bi"; "pandas";
               "mysql"; "jupyter"; "anaconda"; "azure"; "aws"]);
    ("Q&A/Livestream", ["q&a"; "qa"; "livestream"; "ask me anything"; "ama";
                        "live"; "questions"; "answers"]);
    ("Advice", ["tips"; "mistakes"; "reasons"; "best"; "top"; "avoid";
                "should"; "shouldn't"; "advice"; "recommendation"]) ]%string.

(** The loop [for category, keywords in categories.items()]. *)
Fixpoint first_category (cats : list (string * list string)) (title_lower : string)
  : string :=
  match cats with
  | [] => "Other"%string
  | (category, keywords) :: rest =>
      if existsb (fun keyword => contains keyword title_lower) keywords
      then category
      else first_category rest title_lower
  end.

Definition categorize_video_type (title : string) : string :=
  let title_lower := lower title in
  first_category categories title_lower.


Definition bins : list pyfloat := [Fin 0; Fin 5; Fin 15; Fin 30; Fin 60; PosInf].

Definition labels : list string :=
  ["Very Short (<5min)"; "Short (5-15min)"; "Medium (15-30min)";
   "Long (30-60min)"; "Very Long (>60min)"]%string.

Local Open Scope st_scope.

(** [process_dataframe(df)]: every assignment writes a column of the frame
    it was given, and that frame is returned. *)
Definition process_dataframe (df : positive) : St positive :=
  duration <- st_bind (getitem df "duration") (fun s => lift (Pandas.as_str s)) ;;
  setitem df "duration_sec" (SInt (map duration_to_seconds duration)) ;;
  duration_sec <- st_bind (getitem df "duration_sec") (fun s => lift (Pandas.as_int s)) ;;
  setitem df "duration_min" (SFloat (map (fun x => PyFloat.truediv x 60) duration_sec)) ;;
  likes <- st_bind (getitem df "likes") (fun s => lift (Pandas.as_int s)) ;;
  views <- st_bind (getitem df "views") (fun s => lift (Pandas.as_int s)) ;;
  setitem df "likes_per_view"
    (SFloat (Pandas.zip_with PyFloat.truediv likes (Pandas.replace 0 1 views))) ;;
  comments <- st_bind (getitem df "comments") (fun s => lift (Pandas.as_int s)) ;;
  views <- st_bind (getitem df "views") (fun s => lift (Pandas.as_int s)) ;;
  setitem df "comments_per_view"
    (SFloat (Pandas.zip_with PyFloat.truediv comments (Pandas.replace 0 1 views))) ;;
  likes <- st_bind (getitem df "likes") (fun s => lift (Pandas.as_int s)) ;;
  comments <- st_bind (getitem df "comments") (fun s => lift (Pandas.as_int s)) ;;
  views <- st_bind (getitem df "views") (fun s => lift (Pandas.as_int s)) ;;
  setitem df "engagement_rate"
    (SFloat (Pandas.zip_with PyFloat.truediv (Pandas.zip_with Z.add likes comments)
               (Pandas.replace 0 1 views))) ;;
  published <- st_bind (getitem df "published") (fun s => lift (Pandas.as_str s)) ;;
  parsed <- lift (mapM (fun x => call (to_datetime x)) published) ;;
  setitem df "published" (STime parsed) ;;
  published <- st_bind (getitem df "published") (fun s => lift (Pandas.as_time s)) ;;
  setitem df "upload_quarter" (SStr (map ts_quarter published)) ;;
  published <- st_bind (getitem df "published") (fun s => lift (Pandas.as_time s)) ;;
  setitem df "day_of_week" (SInt (map ts_dayofweek published)) ;;
  published <- st_bind (getitem df "published") (fun s => lift (Pandas.as_time s)) ;;
  setitem df "day_name" (SStr (map ts_day_name published)) ;;
  published <- st_bind (getitem df "published") (fun s => lift (Pandas.as_time s)) ;;
  setitem df "month" (SInt (map ts_month published)) ;;
  published <- st_bind (getitem df "published") (fun s => lift (Pandas.as_time s)) ;;
  setitem df "year" (SInt (map ts_year published)) ;;
  title <- st_bind (getitem df "title") (fun s => lift (Pandas.as_str s)) ;;
  setitem df "category" (SStr (map categorize_video_type title)) ;;
  duration_min <- st_bind (getitem df "duration_min") (fun s => lift (Pandas.as_float s)) ;;
  setitem df "duration_category" (SCat (map (Pandas.cut bins labels) duration_min)) ;;
  st_ret df.

Local Close Scope st_scope.

End YouTubeDataProcessor.

(* ===================================================================== *)
(** * YouTubeAnalytics *)
(* ===================================================================== *)

(** The conclusion a hypothesis test prints. *)
Inductive verdict :=
| Supported
| RejectedReverse
| RejectedNotSignificant
| InsufficientData.

(** The dict returned by [test_day_of_week_hypothesis]. *)
Record DayOfWeekResult := {
  f_statistic : pyfloat;
  p_value : pyfloat
}.

(** The dict returned by [test_tutorial_vs_career_hypothesis], without the
    medians and the effect size, which are reported only. *)
Record TutorialCareerResult := {
  tutorial_count : nat;
  career_count : nat;
  tutorial_mean_views : pyfloat;
  career_mean_views : pyfloat;
  t_statistic : pyfloat;
  t_pvalue : pyfloat;
  u_statistic : pyfloat;
  u_pvalue : pyfloat;
  hypothesis_supported : bool
}.

Module YouTubeAnalytics.

(** The significance level 0.05.  No float64 lies between 1/20 and the
    float nearest to it, so a float p-value is below the one exactly when
    it is below the other. *)
Definition alpha : pyfloat := Fin (5 # 100).

(** [scipy.stats.ttest_ind(a, b, axis=0, equal_var=True, ...)]: the value
    of the argument the program leaves out. *)
Definition ttest_ind_default_equal_var : bool := true.

(** [df[df[name] == value]] for a column of strings and one of integers. *)
Definition where_str (df : DataFrame) (name value : string) : Prog DataFrame :=
  bind (Pandas.column df name) (fun s =>
  bind (Pandas.as_str s) (fun l =>
  Ret (Pandas.df_select (map (fun x => String.eqb x value) l) df))).

Definition where_int (df : DataFrame) (name : string) (value : Z) : Prog DataFrame :=
  bind (Pandas.column df name) (fun s =>
  bind (Pandas.as_int s) (fun l =>
  Ret (Pandas.df_select (map (fun x => x =? value) l) df))).

(** [df[name].values] for an int64 column. *)
Definition int_values (df : DataFrame) (name : string) : Prog (list Z) :=
  bind (Pandas.column df name) Pandas.as_int.

(** [test_day_of_week_hypothesis].  The ranking of the days printed after
    Tukey's test reads the columns [day_name] and [views] and does not
    enter the result. *)
Definition test_day_of_week_hypothesis (df : DataFrame)
  : Prog (verdict * DayOfWeekResult) :=
  bind (mapM (fun i => bind (where_int df "day_of_week" i)
                         (fun sub => int_values sub "views"))
             (map Z.of_nat (seq 0 7))) (fun day_groups =>
  bind (call (f_oneway day_groups)) (fun '(f_stat, p_val) =>
  if PyFloat.lt p_val alpha then
    bind (int_values df "views") (fun endog =>
    bind (int_values df "day_of_week") (fun groups =>
    bind (call (pairwise_tukeyhsd endog groups (5 # 100))) (fun _ =>
    bind (Pandas.column df "day_name") (fun _ =>
    Ret (Supported, {| f_statistic := f_stat; p_value := p_val |})))))
  else
    Ret (RejectedNotSignificant, {| f_statistic := f_stat; p_value := p_val |}))).

(** [test_tutorial_vs_career_hypothesis]; [None] is Python's [None].  The
    descriptive statistics and the effect size, which are printed between
    the tests and the conclusion, raise nothing and decide nothing; they are
    left out.  The additional insights printed after the conclusion read
    the [engagement_rate] column of both groups. *)
Definition test_tutorial_vs_career_hypothesis (df : DataFrame)
  : Prog (verdict * option TutorialCareerResult) :=
  bind (where_str df "category" "Tutorial") (fun tutorial_videos =>
  bind (where_str df "category" "Career") (fun career_videos =>
  if (df_len tutorial_videos <? 2)%nat || (df_len career_videos <? 2)%nat then
    Ret (InsufficientData, None)
  else
    bind (int_values tutorial_videos "views") (fun tutorial_views =>
    bind (int_values career_videos "views") (fun career_views =>
    bind (call (ttest_ind tutorial_views career_views ttest_ind_default_equal_var))
      (fun '(t_stat, t_pval) =>
    bind (call (mannwhitneyu tutorial_views career_views "two-sided"))
      (fun '(u_stat, u_pval) =>
    let tutorial_mean := PyFloat.mean tutorial_views in
    let career_mean := PyFloat.mean career_views in
    let conclusion :=
      if PyFloat.lt u_pval alpha then
        if PyFloat.gt tutorial_mean career_mean then Supported else RejectedReverse
      else RejectedNotSignificant in
    bind (bind (Pandas.column tutorial_videos "engagement_rate") Pandas.mean_printed)
      (fun _ =>
    bind (bind (Pandas.column career_videos "engagement_rate") Pandas.mean_printed)
      (fun _ =>
    Ret (conclusion,
         Some {| tutorial_count := df_len tutorial_videos;
                 career_count := df_len career_videos;
                 tutorial_mean_views := tutorial_mean;
                 career_mean_views := career_mean;
                 t_statistic := t_stat;
                 t_pvalue := t_pval;
                 u_statistic := u_stat;
                 u_pvalue := u_pval;
                 hypothesis_supported :=
                   PyFloat.lt u_pval alpha
                   && PyFloat.gt tutorial_mean career_mean |}))))))))).

Definition stop_words : list string :=
  ["a"; "an"; "the"; "in"; "on"; "at"; "to"; "for"; "of";
   "and"; "or"; "is"; "with"; "from"; "|"; "vs"; "by"; "are";
   "be"; "as"; "it"; "this"; "that"; "my"; "your"; "i"; "you"]%string.

Definition mem (w : string) (l : list string) : bool := existsb (String.eqb w) l.

(** [Counter(keywords)]: the words in the order of their first occurrence,
    each with its count. *)
Fixpoint counter_add (w : string) (c : list (string * Z)) : list (string * Z) :=
  match c with
  | [] => [(w, 1)]
  | (k, n) :: c' => if String.eqb k w then (k, n + 1) :: c' else (k, n) :: counter_add w c'
  end.

Definition Counter (l : list string) : list (string * Z) :=
  fold_left (fun c w => counter_add w c) l [].

(** [c.most_common(n)]: by decreasing count, equal counts in the order of
    first occurrence. *)
Definition most_common (n : nat) (c : list (string * Z)) : list (string * Z) :=
  firstn n (Pandas.sort_desc c).

(** [analyze_keyword_frequency(top_percentile)]; the product
    [len(df) * top_percentile] is taken exactly. *)
Definition analyze_keyword_frequency (df : DataFrame) (top_percentile : Q)
  : Prog (list (string * Z)) :=
  let threshold := PyFloat.trunc (inject_Z (Z.of_nat (df_len df)) * top_percentile) in
  bind (Pandas.nlargest threshold "views" df) (fun top_videos =>
  bind (Pandas.column top_videos "title") (fun s =>
  bind (Pandas.as_str s) (fun titles =>
  let keywords := flat_map (fun t => PyStr.findall_words (PyStr.lower t)) titles in
  let keywords :=
    List.filter (fun w => negb (mem w stop_words) && (2 <? String.length w)%nat) keywords in
  Ret (most_common 15 (Counter keywords))))).










Definition summary_h2 (h2_results : DayOfWeekResult) : bool :=
  PyFloat.lt (p_value h2_results) alpha.

Definition summary_h3 (h3_results : option TutorialCareerResult) : option bool :=
  match h3_results with
  | Some r => Some (hypothesis_supported r)
  | None => None
  end.

(** The ANOVA across categories in [compare_video_categories]: one sample
    per value of [df['category'].unique()], the [views] of the rows of that
    category.  The table of aggregates, which the function prints before
    the ANOVA and returns, is not part of this definition. *)
Definition category_groups (df : DataFrame) : Prog (list (list Z)) :=
  bind (Pandas.column df "category") (fun s =>
  bind (Pandas.as_str s) (fun cats =>
  mapM (fun cat => bind (where_str df "category" cat)
                     (fun sub => int_values sub "views"))
       (Pandas.unique cats))).

Definition category_anova (df : DataFrame) : Prog (pyfloat * pyfloat) :=
  bind (category_groups df) (fun groups => call (f_oneway groups)).

End YouTubeAnalytics.

(** A library that answers every call with a fixed value of the right
    kind. *)
Definition constant_library (ts : Timestamp) (anova ttest mwu : pyfloat * pyfloat)
  : handler :=
  fun R c =>
    match c in lib R return exn + R with
    | to_datetime _ => inr ts
    | f_oneway _ => inr anova
    | pairwise_tukeyhsd _ _ _ => inr EmptyString
    | ttest_ind _ _ _ => inr ttest
    | mannwhitneyu _ _ _ => inr mwu
    end.

(** A duration encoding as the spec describes it: a prefix without digits
    (["PT"]), then optional hour, minute and second components, each a
    non-empty run of digits followed by its unit marker. *)
Record Encoding := {
  enc_prefix : string;
  enc_hours : option string;
  enc_minutes : option string;
  enc_seconds : option string
}.

Definition magnitude_ok (o : option string) : bool :=
  match o with
  | None => true
  | Some g => PyStr.all_digits g && negb (String.eqb g EmptyString)
  end.

Definition well_formed (e : Encoding) : bool :=
  PyStr.no_digit (enc_prefix e) && magnitude_ok (enc_hours e)
  && magnitude_ok (enc_minutes e) && magnitude_ok (enc_seconds e).

Definition component (o : option string) (u : ascii) : string :=
  match o with
  | None => EmptyString
  | Some g => g +:+ String u EmptyString
  end.

Definition render (e : Encoding) : string :=
  enc_prefix e +:+ component (enc_hours e) "H"
    +:+ component (enc_minutes e) "M" +:+ component (enc_seconds e) "S".

Definition magnitude (o : option string) : Z :=
  match o with None => 0 | Some g => PyStr.int g end.



Definition all_lower (kws : list string) : bool :=
  forallb (fun kw => String.eqb (PyStr.lower kw) kw) kws.

(** The classifier as the spec words it: a keyword matches a title when it is
    a case-insensitive substring of it; the label is the first category of
    the ordered list with a matching keyword, and "Other" when there is
    none. *)
Definition ci_substring (kw title : string) : Prop :=
  exists pre w post, title = pre +:+ w +:+ post /\ PyStr.lower w = PyStr.lower kw.

Definition category_matches (keywords : list string) (title : string) : Prop :=
  exists kw, In kw keywords /\ ci_substring kw title.

Inductive first_match : list (string * list string) -> string -> string -> Prop :=
| fm_other title : first_match [] title "Other"
| fm_here c kws rest title :
    category_matches kws title -> first_match ((c, kws) :: rest) title c
| fm_later c kws rest title r :
    ~ category_matches kws title -> first_match rest title r ->
    first_match ((c, kws) :: rest) title r.

Definition keywords_of (c : string) : list string :=
  match find (fun p => String.eqb (fst p) c) YouTubeDataProcessor.categories with
  | Some p => snd p
  | None => []
  end.

(** ** Records *)

(** One item as retrieved: the dict that [get_video_details] builds. *)
Record RawItemRecord := {
  video_id : string;
  title : string;
  views : Z;
  likes : Z;
  comments : Z;
  duration : string;
  published : string;
  description : string;
  tags : list string
}.

(** [pd.DataFrame(video_data)]: one column per key, one row per record, in
    the order of the records. *)
Definition raw_frame (rs : list RawItemRecord) : DataFrame :=
  {| df_len := length rs;
     df_columns :=
       <["video_id" := SStr (map video_id rs)]>
       (<["title" := SStr (map title rs)]>
       (<["views" := SInt (map views rs)]>
       (<["likes" := SInt (map likes rs)]>
       (<["comments" := SInt (map comments rs)]>
       (<["duration" := SStr (map duration rs)]>
       (<["published" := SStr (map published rs)]>
       (<["description" := SStr (map description rs)]>
       (<["tags" := STags (map tags rs)]> ∅)))))))) |}.

(** One row of the analysis-ready table. *)
Record AnalysisRecord := {
  ar_video_id : string;
  ar_title : string;
  ar_views : Z;
  ar_likes : Z;
  ar_comments : Z;
  ar_duration : string;
  ar_published : Timestamp;
  ar_description : string;
  ar_tags : list string;
  ar_duration_sec : Z;
  ar_duration_min : pyfloat;
  ar_likes_per_view : pyfloat;
  ar_comments_per_view : pyfloat;
  ar_engagement_rate : pyfloat;
  ar_upload_quarter : string;
  ar_day_of_week : Z;
  ar_day_name : string;
  ar_month : Z;
  ar_year : Z;
  ar_category : string;
  ar_duration_category : option string
}.

(** The derivation of one row, as the spec describes it record by record;
    [parse] stands for the timestamp parser. *)
Definition derive_record (parse : string -> Timestamp) (r : RawItemRecord)
  : AnalysisRecord :=
  let sec := YouTubeDataProcessor.duration_to_seconds (duration r) in
  let minutes := PyFloat.truediv sec 60 in
  let denominator := if views r =? 0 then 1 else views r in
  let ts := parse (published r) in
  {| ar_video_id := video_id r;
     ar_title := title r;
     ar_views := views r;
     ar_likes := likes r;
     ar_comments := comments r;
     ar_duration := duration r;
     ar_published := ts;
     ar_description := description r;
     ar_tags := tags r;
     ar_duration_sec := sec;
     ar_duration_min := minutes;
     ar_likes_per_view := PyFloat.truediv (likes r) denominator;
     ar_comments_per_view := PyFloat.truediv (comments r) denominator;
     ar_engagement_rate := PyFloat.truediv (likes r + comments r) denominator;
     ar_upload_quarter := ts_quarter ts;
     ar_day_of_week := ts_dayofweek ts;
     ar_day_name := ts_day_name ts;
     ar_month := ts_month ts;
     ar_year := ts_year ts;
     ar_category := YouTubeDataProcessor.categorize_video_type (title r);
     ar_duration_category :=
       Pandas.cut YouTubeDataProcessor.bins YouTubeDataProcessor.labels minutes |}.

(** The table that holds the rows [ars], column by column. *)
Definition analysis_frame (ars : list AnalysisRecord) : DataFrame :=
  {| df_len := length ars;
     df_columns :=
       <["duration_category" := SCat (map ar_duration_category ars)]>
       (<["category" := SStr (map ar_category ars)]>
       (<["year" := SInt (map ar_year ars)]>
       (<["month" := SInt (map ar_month ars)]>
       (<["day_name" := SStr (map ar_day_name ars)]>
       (<["day_of_week" := SInt (map ar_day_of_week ars)]>
       (<["upload_quarter" := SStr (map ar_upload_quarter ars)]>
       (<["engagement_rate" := SFloat (map ar_engagement_rate ars)]>
       (<["comments_per_view" := SFloat (map ar_comments_per_view ars)]>
       (<["likes_per_view" := SFloat (map ar_likes_per_view ars)]>
       (<["duration_min" := SFloat (map ar_duration_min ars)]>
       (<["duration_sec" := SInt (map ar_duration_sec ars)]>
       (<["video_id" := SStr (map ar_video_id ars)]>
       (<["title" := SStr (map ar_title ars)]>
       (<["views" := SInt (map ar_views ars)]>
       (<["likes" := SInt (map ar_likes ars)]>
       (<["comments" := SInt (map ar_comments ars)]>
       (<["duration" := SStr (map ar_duration ars)]>
       (<["published" := STime (map ar_published ars)]>
       (<["description" := SStr (map ar_description ars)]>
       (<["tags" := STags (map ar_tags ars)]> ∅)))))))))))))))))))) |}.



(** The class of a duration in minutes, as [process_dataframe] computes
    it. *)
Definition duration_category (d : Q) : option string :=
  Pandas.cut YouTubeDataProcessor.bins YouTubeDataProcessor.labels (Fin d).




(** ** Sample data *)

Definition sample_timestamp : Timestamp :=
  {| ts_dayofweek := 2; ts_day_name := "Wednesday"; ts_month := 5;
     ts_year := 2023; ts_quarter := "2023Q2" |}.

Definition sample_records : list RawItemRecord :=
  [ {| video_id := "v1"; title := "SQL Tutorial for Beginners"; views := 1000;
       likes := 50; comments := 5; duration := "PT15M30S";
       published := "2023-05-17T14:00:09Z"; description := ""; tags := [] |};
    {| video_id := "v2"; title := "Python Tutorial Basics"; views := 0;
       likes := 3; comments := 0; duration := "PT5M";
       published := "2023-05-17T14:00:09Z"; description := ""; tags := [] |} ].

(** A library whose ANOVA is degenerate (NaN, as scipy answers for a sample
    with an empty group) and whose rank test is significant. *)
Definition sample_library : handler :=
  constant_library sample_timestamp (NaN, NaN) (Fin 0, Fin 1) (Fin 90, Fin (1 # 1000)).

Definition sample_store : store := {[ 1%positive := raw_frame sample_records ]}.

(** ** The groups and means the claims speak of *)

(** The number of records of a category, and their view counts in table
    order. *)
Definition count_category (c : string) (cats : list string) : nat :=
  length (List.filter (fun x => String.eqb x c) cats).

Definition category_views (c : string) (cats : list string) (vs : list Z) : list Z :=
  Pandas.select (map (fun x => String.eqb x c) cats) vs.

(** The view counts of the records published on day [i]. *)
Definition day_group (i : Z) (days vs : list Z) : list Z :=
  Pandas.select (map (fun x => x =? i) days) vs.

Definition day_groups (days vs : list Z) : list (list Z) :=
  map (fun i => day_group i days vs) [0; 1; 2; 3; 4; 5; 6].


(** The [equal_var] argument of a call, when the call is a t-test. *)
Definition equal_var_of (c : called) : option bool :=
  match c with
  | Called (ttest_ind _ _ equal_var) => Some equal_var
  | Called _ => None
  end.

(** Ten tutorials, nine of them just ahead of every career video and one
    far behind, and ten career videos: the two means are both 10. *)
Definition tie_table : DataFrame :=
  {| df_len := 20;
     df_columns :=
       <["category" := SStr (repeat "Tutorial"%string 10 ++ repeat "Career"%string 10)]>
       (<["views" := SInt (repeat 11 9 ++ [1] ++ repeat 10 10)]>
       (<["engagement_rate" := SFloat (repeat (Fin (1 # 20)) 20)]> ∅)) |}.

(** Six videos, one on each day from Monday to Saturday, none on Sunday. *)
Definition no_sunday_table : DataFrame :=
  {| df_len := 6;
     df_columns :=
       <["day_of_week" := SInt [0; 1; 2; 3; 4; 5]]>
       (<["day_name" := SStr ["Monday"; "Tuesday"; "Wednesday"; "Thursday";
                              "Friday"; "Saturday"]%string]>
       (<["views" := SInt [120; 80; 95; 300; 15; 60]]> ∅)) |}.

(** The table of the two sample records, after feature derivation. *)
Definition keyword_table : DataFrame :=
  analysis_frame (map (derive_record (fun _ => sample_timestamp)) sample_records).

(** ** Orderings *)

(** Non-increasing counts or view counts, and the same on keyed pairs. *)
Definition descending (l : list Z) : Prop :=
  StronglySorted (fun a b => b <= a) l.

Definition descending_by_snd {A : Type} (l : list (A * Z)) : Prop :=
  StronglySorted (fun a b => snd b <= snd a) l.

(** The words of the titles, as [analyze_keyword_frequency] collects them
    before filtering. *)
Definition title_words (titles : list string) : list string :=
  flat_map (fun t => PyStr.findall_words (PyStr.lower t)) titles.

Definition kept_word (w : string) : bool :=
  negb (YouTubeAnalytics.mem w YouTubeAnalytics.stop_words)
  && (2 <? String.length w)%nat.

(** The count a [Counter] holds for a word, 0 when the word is not a key. *)
Definition counter_get (c : list (string * Z)) (w : string) : Z :=
  match find (fun p => String.eqb (fst p) w) c with
  | Some p => snd p
  | None => 0
  end.

(** The duration class read off the whole seconds: no class for 0 seconds,
    then the bounds 5, 15, 30 and 60 minutes, each belonging to the class
    below it. *)
Definition seconds_class (sec : Z) : option string :=
  if sec <=? 0 then None
  else if sec <=? 300 then Some "Very Short (<5min)"%string
  else if sec <=? 900 then Some "Short (5-15min)"%string
  else if sec <=? 1800 then Some "Medium (15-30min)"%string
  else if sec <=? 3600 then Some "Long (30-60min)"%string
  else Some "Very Long (>60min)"%string.

(** The raw frame with one column taken away. *)
Definition raw_frame_without (name : string) (rs : list RawItemRecord) : DataFrame :=
  {| df_len := length rs;
     df_columns := delete name (df_columns (raw_frame rs)) |}.

(** The columns [process_dataframe] reads from the raw frame, in the order
    in which it first reads them. *)
Definition required_columns : list string :=
  ["duration"; "likes"; "views"; "comments"; "published"; "title"]%string.


(** The priority of a label: its position in the ordered list of
    categories, the length of the list for a label that is not in it
    ("Other"). *)
Fixpoint rank_in (cats : list (string * list string)) (label : string) : nat :=
  match cats with
  | [] => O
  | (c, _) :: rest => if String.eqb c label then O else S (rank_in rest label)
  end.

Definition category_rank (label : string) : nat :=
  rank_in YouTubeDataProcessor.categories label.



(* ===================================================================== *)
(** * YouTubeDataExtractor *)
(* ===================================================================== *)

(** One page of [playlistItems().list(...)]: the [videoId] of each item
    ([None] where the item lacks the key), [None] for a response without
    [items], and the [nextPageToken] when there is one. *)
Record PlaylistPage := {
  page_items : option (list (option string));
  page_next : option string
}.

(** The [statistics] of a video; each count is a text, or absent. *)
Record Statistics := {
  viewCount : option string;
  likeCount : option string;
  commentCount : option string
}.

(** One item of [videos().list(...)], as far as [get_video_details] reads
    it; [None] stands for a key that is not there. *)
Record VideoItem := {
  item_id : option string;
  item_title : option string;
  item_statistics : option Statistics;
  item_duration : option string;
  item_published_at : option string;
  item_description : option string;
  item_tags : option (list string)
}.

(** The API client: each request is answered with a response or with an
    exception.  [channels_list] gives the uploads playlist of each item of
    the response, [videos_list] the items of the response, [None] when the
    response has no [items]. *)
Record YouTubeAPI := {
  channels_list : string -> exn + option (list (option string));
  playlist_items_list : string -> option string -> exn + PlaylistPage;
  videos_list : string -> exn + option (list VideoItem)
}.

Module YouTubeDataExtractor.

(** Every exception is caught and turned into the fallback value, so the
    helpers below only tell whether one was raised: [None] is "raised". *)

(** [get_upload_playlist_id]: [items[0]...['uploads']], [None] on any
    exception. *)
Definition get_upload_playlist_id (api : YouTubeAPI) (channel_id : string)
  : option string :=
  match channels_list api channel_id with
  | inr (Some (Some uploads :: _)) => Some uploads
  | _ => None
  end.

(** [[item['contentDetails']['videoId'] for item in items]] *)
Fixpoint all_present {A : Type} (l : list (option A)) : option (list A) :=
  match l with
  | [] => Some []
  | Some x :: l' =>
      match all_present l' with
      | Some xs => Some (x :: xs)
      | None => None
      end
  | None :: _ => None
  end.

(** [if not next_page_token] *)
Definition falsy (token : option string) : bool :=
  match token with
  | None => true
  | Some t => String.eqb t EmptyString
  end.

(** The [while True] loop of [get_all_video_ids]; [fuel] bounds the number
    of requests, and the outer [None] says that the loop was still running
    when the fuel ran out.  An exception anywhere gives the empty list. *)
Fixpoint get_all_video_ids_loop (fuel : nat) (api : YouTubeAPI) (playlist_id : string)
    (next_page_token : option string) (video_ids : list string)
  : option (list string) :=
  match fuel with
  | O => None
  | S fuel' =>
      match playlist_items_list api playlist_id next_page_token with
      | inl _ => Some []
      | inr response =>
          match all_present (default [] (page_items response)) with
          | None => Some []
          | Some page_videos =>
              let video_ids := video_ids ++ page_videos in
              if falsy (page_next response) then Some video_ids
              else get_all_video_ids_loop fuel' api playlist_id (page_next response)
                     video_ids
          end
      end
  end.

Definition get_all_video_ids (fuel : nat) (api : YouTubeAPI) (playlist_id : string)
  : option (list string) :=
  get_all_video_ids_loop fuel api playlist_id None [].

(** [int(statistics.get(key, 0))]: the default 0 when the key is absent,
    otherwise the text converted by [int], which may raise. *)
Definition count_of (py_int : string -> option Z) (field : option string) : option Z :=
  match field with
  | None => Some 0
  | Some text => py_int text
  end.

(** The dict built for one item; [None] when building it raises. *)
Definition item_record (py_int : string -> option Z) (item : VideoItem)
  : option RawItemRecord :=
  match item_id item, item_title item, item_statistics item,
        item_duration item, item_published_at item with
  | Some id, Some ttl, Some st, Some dur, Some pub =>
      match count_of py_int (viewCount st), count_of py_int (likeCount st),
            count_of py_int (commentCount st) with
      | Some v, Some l, Some c =>
          Some {| video_id := id; title := ttl; views := v; likes := l; comments := c;
                  duration := dur; published := pub;
                  description := default EmptyString (item_description item);
                  tags := default [] (item_tags item) |}
      | _, _, _ => None
      end
  | _, _, _, _, _ => None
  end.

(** [','.join(batch)] *)
Fixpoint join_comma (l : list string) : string :=
  match l with
  | [] => EmptyString
  | [x] => x
  | x :: l' => x +:+ "," +:+ join_comma l'
  end.

(** [video_ids[i:i+50] for i in range(0, len(video_ids), 50)] *)
Definition batches (video_ids : list string) : list (list string) :=
  map (fun k => firstn 50 (skipn (50 * k) video_ids))
      (seq 0 ((length video_ids + 49) / 50)).

(** The loop over the batches; [None] when a request or an item raises. *)
Fixpoint fetch_batches (py_int : string -> option Z) (api : YouTubeAPI)
    (bs : list (list string)) (stats : list RawItemRecord)
  : option (list RawItemRecord) :=
  match bs with
  | [] => Some stats
  | batch :: bs' =>
      match videos_list api (join_comma batch) with
      | inr (Some items) =>
          match all_present (map (item_record py_int) items) with
          | Some records => fetch_batches py_int api bs' (stats ++ records)
          | None => None
          end
      | _ => None
      end
  end.

(** [get_video_details]: the records of all batches, or the empty list when
    anything raised. *)
Definition get_video_details (py_int : string -> option Z) (api : YouTubeAPI)
    (video_ids : list string) : list RawItemRecord :=
  default [] (fetch_batches py_int api (batches video_ids) []).

(** Step 2 of [main]: the records to process, or [None] when [main]
    returns before processing; the outer [None] is for a pagination loop
    that outlasts the fuel. *)
Definition extract (fuel : nat) (py_int : string -> option Z) (api : YouTubeAPI)
    (channel_id : string) : option (option (list RawItemRecord)) :=
  match get_upload_playlist_id api channel_id with
  | None => Some None
  | Some playlist_id =>
      if String.eqb playlist_id EmptyString then Some None
      else
        match get_all_video_ids fuel api playlist_id with
        | None => None
        | Some [] => Some None
        | Some video_ids =>
            match get_video_details py_int api video_ids with
            | [] => Some None
            | video_data => Some (Some video_data)
            end
        end
  end.

End YouTubeDataExtractor.

(** The pages a playlist is served in from one page token to another:
    each page is the answer to the token before it and names the next
    one. *)
Inductive page_path (api : YouTubeAPI) (playlist_id : string)
  : option string -> list PlaylistPage -> option string -> Prop :=
| path_nil token : page_path api playlist_id token [] token
| path_cons token page pages token' :
    playlist_items_list api playlist_id token = inr page ->
    YouTubeDataExtractor.falsy (page_next page) = false ->
    page_path api playlist_id (page_next page) pages token' ->
    page_path api playlist_id token (page :: pages) token'.

(** The video ids of a page, when every item has one. *)
Definition page_ids (page : PlaylistPage) : option (list string) :=
  YouTubeDataExtractor.all_present (default [] (page_items page)).

(** The ids of a run of pages, in order; [[]] when an item lacks its id. *)
Definition ids_of_pages (pages : list PlaylistPage) : list string :=
  match YouTubeDataExtractor.all_present (map page_ids pages) with
  | Some idss => concat idss
  | None => []
  end.

(** What one batch contributes: the records of the items of the response;
    [None] when the request or one of its items raises. *)
Definition batch_records (py_int : string -> option Z) (api : YouTubeAPI)
    (batch : list string) : option (list RawItemRecord) :=
  match videos_list api (YouTubeDataExtractor.join_comma batch) with
  | inr (Some items) =>
      YouTubeDataExtractor.all_present (map (YouTubeDataExtractor.item_record py_int) items)
  | _ => None
  end.

(** ** A sample channel *)

(** A conversion of count texts that reads a plain run of decimal digits
    and refuses every other text. *)
Definition sample_int (text : string) : option Z :=
  if PyStr.all_digits text && negb (String.eqb text EmptyString)
  then Some (PyStr.int text) else None.

Definition sample_item (id : string) (stats : Statistics) : VideoItem :=
  {| item_id := Some id; item_title := Some ("SQL Tutorial " +:+ id);
     item_statistics := Some stats; item_duration := Some "PT15M30S"%string;
     item_published_at := Some "2023-05-17T14:00:09Z"%string;
     item_description := None; item_tags := None |}.

(** A channel of three videos served in two pages; the counts of the
    second video are hidden. *)
Definition sample_api : YouTubeAPI :=
  {| channels_list := fun _ => inr (Some [Some "UU1"%string]);
     playlist_items_list := fun _ token =>
       match token with
       | None => inr {| page_items := Some [Some "a"; Some "b"]%string;
                        page_next := Some "p2"%string |}
       | Some t =>
           if String.eqb t "p2"
           then inr {| page_items := Some [Some "c"%string]; page_next := None |}
           else inl (LibraryError "HttpError")
       end;
     videos_list := fun ids =>
       if String.eqb ids "a,b,c"
       then inr (Some [ sample_item "a" {| viewCount := Some "1000"%string;
                                           likeCount := Some "50"%string;
                                           commentCount := Some "5"%string |};
                        sample_item "b" {| viewCount := None; likeCount := None;
                                           commentCount := None |};
                        sample_item "c" {| viewCount := Some "20"%string;
                                           likeCount := None;
                                           commentCount := Some "0"%string |} ])
       else inl (LibraryError "HttpError") |}.

(** A playlist whose every page names a next one. *)
Definition endless_api : YouTubeAPI :=
  {| channels_list := fun _ => inr (Some [Some "UU1"%string]);
     playlist_items_list := fun _ _ =>
       inr {| page_items := Some [Some "a"%string]; page_next := Some "again"%string |};
     videos_list := fun _ => inl (LibraryError "HttpError") |}.

(** A channel whose second page cannot be fetched. *)
Definition failing_api : YouTubeAPI :=
  {| channels_list := channels_list sample_api;
     playlist_items_list := fun _ token =>
       match token with
       | None => inr {| page_items := Some [Some "a"; Some "b"]%string;
                        page_next := Some "p2"%string |}
       | Some _ => inl (LibraryError "HttpError")
       end;
     videos_list := videos_list sample_api |}.

(* ===================================================================== *)
(** * Proofs: the duration parser *)
(* ===================================================================== *)

Section RegexFacts.
Import PyStr.

Lemma app_cons (c : ascii) (s t : string) : String c s +:+ t = String c (s +:+ t).
Proof. reflexivity. Qed.

Lemma app_empty_l (t : string) : EmptyString +:+ t = t.
Proof. reflexivity. Qed.

Lemma app_empty_r (s : string) : s +:+ EmptyString = s.
Proof. induction s as [|c s IH]; [reflexivity|]. rewrite app_cons, IH. reflexivity. Qed.

Lemma app_assoc_str (s t r : string) : (s +:+ t) +:+ r = s +:+ (t +:+ r).
Proof. induction s as [|c s IH]; [reflexivity|]. rewrite !app_cons, IH. reflexivity. Qed.

Lemma digits_then_nodigit u c s : is_digit c = false -> digits_then u (String c s) = None.
Proof. intros H. simpl. rewrite H. reflexivity. Qed.

Lemma digits_then_stops u g t :
  is_digit u = false ->
  all_digits g = true -> stops u t = true -> digits_then u (g +:+ t) = None.
Proof.
  intros Hu Hg Ht. induction g as [|c g IH].
  - rewrite app_empty_l. destruct t as [|c' t']; [reflexivity|].
    simpl in Ht. apply andb_prop in Ht as [Hd _].
    apply digits_then_nodigit. destruct (is_digit c'); [discriminate|reflexivity].
  - simpl in Hg. apply andb_prop in Hg as [Hc Hg].
    rewrite app_cons. simpl. rewrite Hc, (IH Hg).
    destruct g as [|c2 g2].
    + rewrite app_empty_l. destruct t as [|c' t']; [reflexivity|].
      simpl in Ht. apply andb_prop in Ht as [_ Hne].
      destruct (Ascii.eqb c' u); [discriminate|reflexivity].
    + rewrite app_cons. simpl in Hg. apply andb_prop in Hg as [Hc2 _].
      destruct (Ascii.eqb c2 u) eqn:E; [|reflexivity].
      apply Ascii.eqb_eq in E. subst c2. congruence.
Qed.

Lemma digits_then_hit u g rest :
  is_digit u = false ->
  all_digits g = true -> g <> EmptyString ->
  digits_then u (g +:+ String u rest) = Some g.
Proof.
  intros Hu Hg Hne. induction g as [|c g IH]; [congruence|].
  simpl in Hg. apply andb_prop in Hg as [Hc Hg].
  rewrite app_cons. simpl. rewrite Hc.
  destruct g as [|c2 g2].
  - rewrite app_empty_l. simpl. rewrite Hu, Ascii.eqb_refl. reflexivity.
  - rewrite IH; [reflexivity|assumption|discriminate].
Qed.

Lemma re_search_unfold u s :
  re_search u s =
  match digits_then u s with
  | Some g => Some g
  | None => match s with EmptyString => None | String _ s' => re_search u s' end
  end.
Proof. destruct s; reflexivity. Qed.

Lemma re_search_hit u g rest :
  is_digit u = false ->
  all_digits g = true -> g <> EmptyString ->
  re_search u (g +:+ String u rest) = Some g.
Proof.
  intros Hu Hg Hne. rewrite re_search_unfold, digits_then_hit by assumption. reflexivity.
Qed.

Lemma re_search_skip_run u g t :
  is_digit u = false ->
  all_digits g = true -> stops u t = true ->
  re_search u (g +:+ t) = re_search u t.
Proof.
  intros Hu Hg Ht. induction g as [|c g IH]; [reflexivity|].
  rewrite re_search_unfold, digits_then_stops by assumption.
  rewrite app_cons. simpl in Hg. apply andb_prop in Hg as [_ Hg]. auto.
Qed.

Lemma re_search_skip_nodigit u p t :
  no_digit p = true -> re_search u (p +:+ t) = re_search u t.
Proof.
  intros Hp. induction p as [|c p IH]; [reflexivity|].
  simpl in Hp. apply andb_prop in Hp as [Hc Hp].
  rewrite app_cons, re_search_unfold, digits_then_nodigit.
  - auto.
  - destruct (is_digit c); [discriminate|reflexivity].
Qed.

(** A match is a non-empty run of digits. *)
Lemma digits_then_all_digits u s g :
  digits_then u s = Some g -> all_digits g = true /\ g <> EmptyString.
Proof.
  revert g. induction s as [|c s IH]; intros g; simpl; [discriminate|].
  destruct (is_digit c) eqn:Hc; [|discriminate].
  destruct (digits_then u s) as [g'|].
  - intros [= <-]. destruct (IH g' eq_refl) as [Hg _].
    split; [simpl; rewrite Hc, Hg; reflexivity|discriminate].
  - destruct s as [|c' s']; [discriminate|].
    destruct (Ascii.eqb c' u); [|discriminate].
    intros [= <-]. split; [simpl; rewrite Hc; reflexivity|discriminate].
Qed.

Lemma re_search_all_digits u s g :
  re_search u s = Some g -> all_digits g = true /\ g <> EmptyString.
Proof.
  induction s as [|c s IH]; rewrite re_search_unfold.
  - simpl. discriminate.
  - destruct (digits_then u (String c s)) eqn:E; [|exact IH].
    intros [= <-]. eapply digits_then_all_digits; eassumption.
Qed.














Lemma int_acc_nonneg g : all_digits g = true -> forall acc, 0 <= acc -> 0 <= int_acc acc g.
Proof.
  induction g as [|c g IH]; intros Hg acc Hacc; simpl; [assumption|].
  simpl in Hg. apply andb_prop in Hg as [Hc Hg].
  apply IH; [assumption|].
  unfold is_digit in Hc. apply andb_prop in Hc as [H1 H2].
  apply N.leb_le in H1, H2. unfold digit_value. lia.
Qed.

Lemma int_nonneg g : all_digits g = true -> 0 <= int g.
Proof. intros Hg. apply int_acc_nonneg; [assumption|lia]. Qed.

End RegexFacts.

Section DurationParser.
Import PyStr YouTubeDataProcessor.

Lemma re_search_component_same u g t :
  is_digit u = false -> magnitude_ok (Some g) = true ->
  re_search u (component (Some g) u +:+ t) = Some g.
Proof.
  intros Hu Hg. simpl in Hg. apply andb_prop in Hg as [Hd Hne].
  unfold component. rewrite app_assoc_str, app_cons, app_empty_l.
  apply re_search_hit; [assumption..|].
  intros ->. discriminate.
Qed.

Lemma re_search_component_other u u' o t :
  is_digit u = false -> is_digit u' = false -> u' <> u -> magnitude_ok o = true ->
  re_search u (component o u' +:+ t) = re_search u t.
Proof.
  intros Hu Hu' Hne Ho. destruct o as [g|]; [|reflexivity].
  simpl in Ho. apply andb_prop in Ho as [Hd _].
  unfold component. rewrite app_assoc_str, app_cons, app_empty_l.
  rewrite re_search_skip_run; [|assumption..|].
  - rewrite re_search_unfold, digits_then_nodigit by assumption. reflexivity.
  - simpl. rewrite Hu'. apply Ascii.eqb_neq in Hne. rewrite Hne. reflexivity.
Qed.

Lemma re_search_component_here u o t :
  is_digit u = false -> magnitude_ok o = true ->
  re_search u (component o u +:+ t) =
  match o with Some g => Some g | None => re_search u t end.
Proof.
  intros Hu Ho. destruct o as [g|]; [|reflexivity].
  apply re_search_component_same; assumption.
Qed.

Lemma re_search_render e :
  well_formed e = true ->
  re_search "H" (render e) = enc_hours e
  /\ re_search "M" (render e) = enc_minutes e
  /\ re_search "S" (render e) = enc_seconds e.
Proof.
  destruct e as [p h m s]. unfold well_formed, render. simpl.
  intros H. apply andb_prop in H as [H Hs]. apply andb_prop in H as [H Hm].
  apply andb_prop in H as [Hp Hh].
  rewrite <- (app_empty_r (component s "S")).
  repeat split; rewrite re_search_skip_nodigit by assumption.
  - rewrite re_search_component_here by (reflexivity || assumption).
    destruct h; [reflexivity|].
    rewrite !re_search_component_other by (reflexivity || assumption || discriminate).
    reflexivity.
  - rewrite re_search_component_other by (reflexivity || assumption || discriminate).
    rewrite re_search_component_here by (reflexivity || assumption).
    destruct m; [reflexivity|].
    rewrite re_search_component_other by (reflexivity || assumption || discriminate).
    reflexivity.
  - rewrite !re_search_component_other by (reflexivity || assumption || discriminate).
    rewrite re_search_component_here by (reflexivity || assumption).
    destruct s; reflexivity.
Qed.

Lemma duration_to_seconds_render e :
  well_formed e = true ->
  duration_to_seconds (render e)
  = magnitude (enc_hours e) * 3600 + magnitude (enc_minutes e) * 60
    + magnitude (enc_seconds e).
Proof.
  intros H. destruct (re_search_render e H) as (Eh & Em & Es).
  unfold duration_to_seconds. rewrite Eh, Em, Es.
  destruct (enc_hours e), (enc_minutes e), (enc_seconds e); simpl; lia.
Qed.

Lemma duration_to_seconds_nonneg s : 0 <= duration_to_seconds s.
Proof.
  unfold duration_to_seconds.
  destruct (re_search "H" s) as [h|] eqn:Eh;
    destruct (re_search "M" s) as [m|] eqn:Em;
    destruct (re_search "S" s) as [x|] eqn:Es;
    repeat match goal with
           | H : re_search _ _ = Some ?g |- _ =>
               apply re_search_all_digits in H as [?%int_nonneg _]
           end; lia.
Qed.







End DurationParser.

(* ===================================================================== *)
(** * Proofs: the category classifier *)
(* ===================================================================== *)

Section Classifier.
Import PyStr YouTubeDataProcessor.

Lemma lower_app a b : lower (a +:+ b) = lower a +:+ lower b.
Proof. induction a as [|c a IH]; [reflexivity|]. rewrite app_cons. simpl. rewrite IH. reflexivity. Qed.

Lemma lower_app_inv t a b :
  lower t = a +:+ b -> exists t1 t2, t = t1 +:+ t2 /\ lower t1 = a /\ lower t2 = b.
Proof.
  revert t. induction a as [|c a IH]; intros t H.
  - exists EmptyString, t. repeat split. exact H.
  - destruct t as [|d t]; [discriminate|].
    rewrite app_cons in H. simpl in H. injection H as Hc Ht.
    destruct (IH t Ht) as (t1 & t2 & -> & H1 & H2).
    exists (String d t1), t2. repeat split; [|assumption]. simpl. congruence.
Qed.

Lemma startswith_spec p s : startswith p s = true <-> exists post, s = p +:+ post.
Proof.
  revert s. induction p as [|a p IH]; intros s.
  - split; [intros _; exists s; reflexivity|reflexivity].
  - destruct s as [|b s]; simpl.
    + split; [discriminate|intros [post H]; discriminate].
    + rewrite andb_true_iff, Ascii.eqb_eq, IH. split.
      * intros [-> [post ->]]. exists post. reflexivity.
      * intros [post H]. rewrite app_cons in H. injection H as -> ->. eauto.
Qed.

Lemma contains_unfold p s :
  contains p s =
  (startswith p s
   || match s with EmptyString => false | String _ s' => contains p s' end).
Proof. destruct s; reflexivity. Qed.

Lemma contains_spec p s :
  contains p s = true <-> exists pre post, s = pre +:+ p +:+ post.
Proof.
  induction s as [|c s IH]; rewrite contains_unfold, orb_true_iff, startswith_spec.
  - split.
    + intros [[post H]|H]; [|discriminate]. exists EmptyString, post. exact H.
    + intros (pre & post & H). left. destruct pre; [eauto|discriminate].
  - rewrite IH. split.
    + intros [[post H]|(pre & post & H)].
      * exists EmptyString, post. exact H.
      * exists (String c pre), post. rewrite app_cons. congruence.
    + intros (pre & post & H). destruct pre as [|d pre].
      * left. eauto.
      * right. rewrite app_cons in H. injection H as _ H. eauto.
Qed.

(** The test [keyword in title_lower] is the case-insensitive containment
    of a lower-case keyword. *)
Lemma contains_lower_ci kw title :
  lower kw = kw -> contains kw (lower title) = true <-> ci_substring kw title.
Proof.
  intros Hkw. rewrite contains_spec. split.
  - intros (pre & post & H).
    apply lower_app_inv in H as (t1 & t23 & -> & H1 & H).
    apply lower_app_inv in H as (t2 & t3 & -> & H2 & H3).
    exists t1, t2, t3. split; [reflexivity|congruence].
  - intros (pre & w & post & -> & Hw).
    exists (lower pre), (lower post). rewrite !lower_app. congruence.
Qed.

Lemma existsb_matches kws title :
  all_lower kws = true ->
  existsb (fun keyword => contains keyword (lower title)) kws = true
  <-> category_matches kws title.
Proof.
  intros Hl. unfold all_lower in Hl. rewrite forallb_forall in Hl.
  rewrite existsb_exists. split.
  - intros (kw & Hin & Hc). exists kw. split; [assumption|].
    apply contains_lower_ci; [|assumption]. apply String.eqb_eq. auto.
  - intros (kw & Hin & Hc). exists kw. split; [assumption|].
    apply contains_lower_ci; [|assumption]. apply String.eqb_eq. auto.
Qed.

Lemma first_category_sound cats title :
  forallb (fun p => all_lower (snd p)) cats = true ->
  first_match cats title (first_category cats (lower title)).
Proof.
  induction cats as [|[c kws] rest IH]; simpl; intros H; [constructor|].
  apply andb_prop in H as [Hk Hrest].
  destruct (existsb _ kws) eqn:E.
  - apply fm_here. apply existsb_matches; assumption.
  - apply fm_later; [|auto].
    intros Hm. apply existsb_matches in Hm; [congruence|assumption].
Qed.

Lemma first_match_unique cats title r1 r2 :
  first_match cats title r1 -> first_match cats title r2 -> r1 = r2.
Proof.
  intros H1. revert r2. induction H1; intros r2 H2; inversion H2; subst;
    try reflexivity; try contradiction; auto.
Qed.

Lemma categories_lower : forallb (fun p => all_lower (snd p)) categories = true.
Proof. vm_compute. reflexivity. Qed.

Lemma first_category_label cats t :
  In (first_category cats t) (map fst cats ++ ["Other"%string]).
Proof.
  induction cats as [|[c kws] rest IH]; simpl; [auto|].
  destruct (existsb _ kws); [left; reflexivity|right; exact IH].
Qed.

(** C4. The classifier returns, for every title, exactly one label: the
    first category in the order Tutorial, Career, Project, Tools,
    Q&A/Livestream, Advice one of whose keywords is a case-insensitive
    substring of the title, and "Other" when there is none; a title with a
    tutorial keyword and a career keyword is a Tutorial. *)
Theorem categorize_video_type_first_match :
  (forall title, first_match categories title (categorize_video_type title))
  /\ (forall title r, first_match categories title r -> r = categorize_video_type title)
  /\ map fst categories
     = ["Tutorial"; "Career"; "Project"; "Tools"; "Q&A/Livestream"; "Advice"]%string
  /\ (forall title, In (categorize_video_type title)
                       (map fst categories ++ ["Other"%string]))
  /\ (forall title,
        category_matches (keywords_of "Tutorial") title ->
        category_matches (keywords_of "Career") title ->
        categorize_video_type title = "Tutorial"%string).
Proof.
  assert (Hs : forall title, first_match categories title (categorize_video_type title)).
  { intros title. apply first_category_sound, categories_lower. }
  split; [exact Hs|].
  split; [intros title r Hr; eapply first_match_unique; eauto|].
  split; [reflexivity|].
  split; [intros title; apply first_category_label|].
  intros title Ht _.
  eapply first_match_unique; [apply Hs|].
  apply fm_here. exact Ht.
Qed.

Lemma categorize_video_type_first_match_witness :
  category_matches (keywords_of "Tutorial") "How to land a data analyst JOB"
  /\ category_matches (keywords_of "Career") "How to land a data analyst JOB"
  /\ categorize_video_type "How to land a data analyst JOB" = "Tutorial"%string.
Proof.
  assert (Ht : category_matches (keywords_of "Tutorial") "How to land a data analyst JOB").
  { exists "how to"%string. split; [vm_compute; tauto|].
    exists ""%string, "How to"%string, " land a data analyst JOB"%string.
    split; reflexivity. }
  assert (Hc : category_matches (keywords_of "Career") "How to land a data analyst JOB").
  { exists "job"%string. split; [vm_compute; tauto|].
    exists "How to land a data analyst "%string, "JOB"%string, ""%string.
    split; reflexivity. }
  split; [exact Ht|]. split; [exact Hc|].
  exact (proj2 (proj2 (proj2 (proj2 categorize_video_type_first_match))) _ Ht Hc).
Defined.

End Classifier.

(* ===================================================================== *)
(** * Proofs: duration classes *)
(* ===================================================================== *)

Section DurationClasses.
Import YouTubeDataProcessor.

(** [pd.cut] on the five bins, read off as a cascade of comparisons. *)
Lemma duration_category_cases d :
  duration_category d =
  if Qle_bool d 0 then None
  else if Qle_bool d 5 then Some "Very Short (<5min)"%string
  else if Qle_bool d 15 then Some "Short (5-15min)"%string
  else if Qle_bool d 30 then Some "Medium (15-30min)"%string
  else if Qle_bool d 60 then Some "Long (30-60min)"%string
  else Some "Very Long (>60min)"%string.
Proof.
  unfold duration_category, Pandas.cut, bins, labels. simpl.
  destruct (Qle_bool d 0); [reflexivity|]. simpl.
  destruct (Qle_bool d 5); [reflexivity|]. simpl.
  destruct (Qle_bool d 15); [reflexivity|]. simpl.
  destruct (Qle_bool d 30); [reflexivity|]. simpl.
  destruct (Qle_bool d 60); reflexivity.
Qed.


Lemma Qle_bool_false a b : (b < a)%Q -> Qle_bool a b = false.
Proof.
  intros H. destruct (Qle_bool a b) eqn:E; [|reflexivity].
  apply Qle_bool_iff in E. lra.
Qed.







End DurationClasses.

(* ===================================================================== *)
(** * Proofs: running programs *)
(* ===================================================================== *)

Section Running.

Lemma run_bind {A B} (h : handler) (m : Prog A) (f : A -> Prog B) :
  run h (bind m f) = match run h m with inl e => inl e | inr a => run h (f a) end.
Proof.
  induction m as [a|e|R c k IH]; simpl; [reflexivity..|].
  destruct (h R c); [reflexivity|apply IH].
Qed.

Lemma run_mapM_to_datetime (h : handler) (parse : string -> Timestamp) l :
  (forall x, In x l -> h _ (to_datetime x) = inr (parse x)) ->
  run h (mapM (fun x => call (to_datetime x)) l) = inr (map parse l).
Proof.
  induction l as [|x l IH]; intros H; simpl; [reflexivity|].
  rewrite (H x) by (left; reflexivity).
  rewrite run_bind, IH by (intros y Hy; apply H; right; exact Hy).
  reflexivity.
Qed.

Lemma exec_bind {A B} h (m : St A) (f : A -> St B) σ :
  exec h (st_bind m f) σ
  = match exec h m σ with inl e => inl e | inr (a, σ') => exec h (f a) σ' end.
Proof.
  unfold exec, st_bind. rewrite run_bind.
  destruct (run h (m σ)) as [e|[a σ']]; reflexivity.
Qed.

Lemma exec_getitem {A} h (l : positive) name (k : Series -> St A) (σ : store) d s :
  df_columns d !! name = Some s ->
  exec h (st_bind (getitem l name) k) (<[l := d]> σ) = exec h (k s) (<[l := d]> σ).
Proof.
  intros Hs. rewrite exec_bind. unfold exec at 1, getitem.
  rewrite lookup_insert_eq. unfold Pandas.column. rewrite Hs. reflexivity.
Qed.

Lemma exec_read_int {A} h (l : positive) name (k : list Z -> St A) (σ : store) d v :
  df_columns d !! name = Some (SInt v) ->
  exec h (st_bind (st_bind (getitem l name) (fun s => lift (Pandas.as_int s))) k)
    (<[l := d]> σ)
  = exec h (k v) (<[l := d]> σ).
Proof.
  intros Hs. rewrite exec_bind, (exec_getitem _ _ _ _ _ _ _ Hs). reflexivity.
Qed.

Lemma exec_read_str {A} h (l : positive) name (k : list string -> St A) (σ : store) d v :
  df_columns d !! name = Some (SStr v) ->
  exec h (st_bind (st_bind (getitem l name) (fun s => lift (Pandas.as_str s))) k)
    (<[l := d]> σ)
  = exec h (k v) (<[l := d]> σ).
Proof.
  intros Hs. rewrite exec_bind, (exec_getitem _ _ _ _ _ _ _ Hs). reflexivity.
Qed.

Lemma exec_read_float {A} h (l : positive) name (k : list pyfloat -> St A) (σ : store) d v :
  df_columns d !! name = Some (SFloat v) ->
  exec h (st_bind (st_bind (getitem l name) (fun s => lift (Pandas.as_float s))) k)
    (<[l := d]> σ)
  = exec h (k v) (<[l := d]> σ).
Proof.
  intros Hs. rewrite exec_bind, (exec_getitem _ _ _ _ _ _ _ Hs). reflexivity.
Qed.

Lemma exec_read_time {A} h (l : positive) name (k : list Timestamp -> St A) (σ : store) d v :
  df_columns d !! name = Some (STime v) ->
  exec h (st_bind (st_bind (getitem l name) (fun s => lift (Pandas.as_time s))) k)
    (<[l := d]> σ)
  = exec h (k v) (<[l := d]> σ).
Proof.
  intros Hs. rewrite exec_bind, (exec_getitem _ _ _ _ _ _ _ Hs). reflexivity.
Qed.

Lemma exec_write {A} h (l : positive) name s (k : unit -> St A) (σ : store) d :
  exec h (st_bind (setitem l name s) k) (<[l := d]> σ)
  = exec h (k tt) (<[l := Pandas.assign d name s]> σ).
Proof.
  rewrite exec_bind. unfold exec at 1, setitem.
  rewrite lookup_insert_eq. simpl. rewrite insert_insert_eq. reflexivity.
Qed.

Lemma exec_parse {A} (h : handler) (parse : string -> Timestamp) (k : list Timestamp -> St A) (σ : store) v :
  (forall x, In x v -> h _ (to_datetime x) = inr (parse x)) ->
  exec h (st_bind (lift (mapM (fun x => call (to_datetime x)) v)) k) σ
  = exec h (k (map parse v)) σ.
Proof.
  intros H. rewrite exec_bind. unfold exec at 1, lift.
  rewrite run_bind, (run_mapM_to_datetime h parse v H). reflexivity.
Qed.

Lemma zip_with_map {A B C D} (f : B -> C -> D) (g : A -> B) (g' : A -> C) l :
  Pandas.zip_with f (map g l) (map g' l) = map (fun x => f (g x) (g' x)) l.
Proof. induction l as [|x l IH]; simpl; [reflexivity|]. rewrite IH. reflexivity. Qed.

End Running.

Ltac column_lookup :=
  unfold Pandas.assign, raw_frame; cbn [df_columns];
  repeat (rewrite lookup_insert_ne by discriminate); apply lookup_insert_eq.

Section FeatureDerivation.
Import YouTubeDataProcessor.

(** The run of [process_dataframe] on the frame of the raw records [rs]:
    it returns the address it was given, and the frame at that address now
    holds one derived row per record, in the order of the records. *)
Lemma process_dataframe_run (h : handler) (parse : string -> Timestamp) rs (df : positive) (σ : store) :
  σ !! df = Some (raw_frame rs) ->
  (forall r, In r rs -> h _ (to_datetime (published r)) = inr (parse (published r))) ->
  run h (process_dataframe df σ)
  = inr (df, <[df := analysis_frame (map (derive_record parse) rs)]> σ).
Proof.
  intros Hdf Hparse.
  rewrite <- (insert_id σ df _ Hdf) at 1.
  change (run h (process_dataframe df ?s)) with (exec h (process_dataframe df) s).
  unfold process_dataframe.
  erewrite exec_read_str by column_lookup.
  rewrite exec_write.
  erewrite exec_read_int by column_lookup.
  rewrite exec_write.
  erewrite exec_read_int by column_lookup.
  erewrite exec_read_int by column_lookup.
  rewrite exec_write.
  erewrite exec_read_int by column_lookup.
  erewrite exec_read_int by column_lookup.
  rewrite exec_write.
  erewrite exec_read_int by column_lookup.
  erewrite exec_read_int by column_lookup.
  erewrite exec_read_int by column_lookup.
  rewrite exec_write.
  erewrite exec_read_str by column_lookup.
  rewrite (exec_parse h parse).
  2:{ intros x Hx. apply in_map_iff in Hx as (r & <- & Hr). auto. }
  rewrite exec_write.
  do 5 (erewrite exec_read_time by column_lookup; rewrite exec_write).
  erewrite exec_read_str by column_lookup.
  rewrite exec_write.
  erewrite exec_read_float by column_lookup.
  rewrite exec_write.
  unfold exec, st_ret. cbn [run].
  do 3 f_equal.
  unfold Pandas.assign, raw_frame, analysis_frame, Pandas.replace.
  cbn [df_len df_columns].
  rewrite !map_map, !zip_with_map, !length_map.
  reflexivity.
Qed.








End FeatureDerivation.

(* ===================================================================== *)
(** * Proofs: the tutorial-vs-career comparison *)
(* ===================================================================== *)

Section TutorialVsCareer.
Import YouTubeAnalytics.

Lemma where_str_eq df name value l :
  df_columns df !! name = Some (SStr l) ->
  where_str df name value
  = Ret (Pandas.df_select (map (fun x => String.eqb x value) l) df).
Proof. intros H. unfold where_str, Pandas.column. rewrite H. reflexivity. Qed.

Lemma where_int_eq df name value l :
  df_columns df !! name = Some (SInt l) ->
  where_int df name value
  = Ret (Pandas.df_select (map (fun x => x =? value) l) df).
Proof. intros H. unfold where_int, Pandas.column. rewrite H. reflexivity. Qed.

Lemma int_values_select df name mask l :
  df_columns df !! name = Some (SInt l) ->
  int_values (Pandas.df_select mask df) name = Ret (Pandas.select mask l).
Proof.
  intros H. unfold int_values, Pandas.column, Pandas.df_select. cbn [df_columns].
  rewrite lookup_fmap, H. reflexivity.
Qed.

Lemma length_filter_mask {A} (f : A -> bool) l :
  length (List.filter (fun b : bool => b) (map f l)) = length (List.filter f l).
Proof.
  induction l as [|x l IH]; simpl; [reflexivity|].
  destruct (f x); simpl; rewrite IH; reflexivity.
Qed.


(** The program of the comparison, once the two columns are known. *)
Lemma column_select_mean df name mask l :
  df_columns df !! name = Some (SFloat l) ->
  bind (Pandas.column (Pandas.df_select mask df) name) Pandas.mean_printed = Ret tt.
Proof.
  intros H. unfold Pandas.column, Pandas.df_select. cbn [df_columns].
  rewrite lookup_fmap, H. reflexivity.
Qed.

Lemma tutorial_vs_career_program df cats vs er :
  df_columns df !! "category" = Some (SStr cats) ->
  df_columns df !! "views" = Some (SInt vs) ->
  df_columns df !! "engagement_rate" = Some (SFloat er) ->
  let tv := category_views "Tutorial" cats vs in
  let cv := category_views "Career" cats vs in
  test_tutorial_vs_career_hypothesis df
  = if (count_category "Tutorial" cats <? 2)%nat || (count_category "Career" cats <? 2)%nat
    then Ret (InsufficientData, None)
    else
      Call (ttest_ind tv cv true) (fun '(t_stat, t_pval) =>
      Call (mannwhitneyu tv cv "two-sided") (fun '(u_stat, u_pval) =>
      Ret (if PyFloat.lt u_pval alpha then
             if PyFloat.gt (PyFloat.mean tv) (PyFloat.mean cv)
             then Supported else RejectedReverse
           else RejectedNotSignificant,
           Some {| tutorial_count := count_category "Tutorial" cats;
                   career_count := count_category "Career" cats;
                   tutorial_mean_views := PyFloat.mean tv;
                   career_mean_views := PyFloat.mean cv;
                   t_statistic := t_stat;
                   t_pvalue := t_pval;
                   u_statistic := u_stat;
                   u_pvalue := u_pval;
                   hypothesis_supported :=
                     PyFloat.lt u_pval alpha
                     && PyFloat.gt (PyFloat.mean tv) (PyFloat.mean cv) |}))).
Proof.
  intros Hc Hv He tv cv. unfold test_tutorial_vs_career_hypothesis.
  rewrite !(where_str_eq _ _ _ _ Hc). cbn [bind].
  unfold Pandas.df_select at 1 2. cbn [df_len].
  rewrite !length_filter_mask. fold (count_category "Tutorial" cats).
  fold (count_category "Career" cats).
  destruct ((count_category "Tutorial" cats <? 2)%nat
            || (count_category "Career" cats <? 2)%nat); [reflexivity|].
  rewrite !(int_values_select _ _ _ _ Hv). cbn [bind].
  rewrite !(column_select_mean _ _ _ _ He).
  unfold call, Pandas.df_select. cbn [bind df_len]. rewrite !length_filter_mask.
  reflexivity.
Qed.

(** C7. With fewer than two Tutorial records or fewer than two Career
    records the comparison returns [None] under the insufficient-data
    notice: no p-value, neither supported nor rejected, and no library
    call is made, so no test is run. *)
Theorem tutorial_vs_career_insufficient_data df cats :
  df_columns df !! "category" = Some (SStr cats) ->
  (count_category "Tutorial" cats < 2)%nat \/ (count_category "Career" cats < 2)%nat ->
  test_tutorial_vs_career_hypothesis df = Ret (InsufficientData, None)
  /\ forall h : handler,
       run h (test_tutorial_vs_career_hypothesis df) = inr (InsufficientData, None)
       /\ trace h (test_tutorial_vs_career_hypothesis df) = [].
Proof.
  intros Hc Hfew.
  assert (E : test_tutorial_vs_career_hypothesis df = Ret (InsufficientData, None)).
  { unfold test_tutorial_vs_career_hypothesis.
    rewrite !(where_str_eq _ _ _ _ Hc). cbn [bind].
    unfold Pandas.df_select. cbn [df_len]. rewrite !length_filter_mask.
    fold (count_category "Tutorial" cats). fold (count_category "Career" cats).
    replace ((count_category "Tutorial" cats <? 2)%nat
             || (count_category "Career" cats <? 2)%nat) with true; [reflexivity|].
    symmetry. apply orb_true_iff.
    destruct Hfew as [H|H]; [left|right]; apply Nat.ltb_lt; exact H. }
  split; [exact E|]. intros h. rewrite E. split; reflexivity.
Qed.


Lemma enough_records (n m : nat) :
  (2 <= n)%nat -> (2 <= m)%nat -> (n <? 2)%nat || (m <? 2)%nat = false.
Proof.
  intros Hn Hm. apply orb_false_iff. split; apply Nat.ltb_ge; assumption.
Qed.

(** C9, as the code has it. The parametric test is called with scipy's
    default [equal_var=True]: the pooled-variance (Student) t-test on the
    two samples of view counts; it is the first library call, and the only
    t-test, of the comparison. *)
Theorem tutorial_vs_career_ttest_equal_var df cats vs er :
  df_columns df !! "category" = Some (SStr cats) ->
  df_columns df !! "views" = Some (SInt vs) ->
  df_columns df !! "engagement_rate" = Some (SFloat er) ->
  (2 <= count_category "Tutorial" cats)%nat ->
  (2 <= count_category "Career" cats)%nat ->
  let tv := category_views "Tutorial" cats vs in
  let cv := category_views "Career" cats vs in
  (exists k, test_tutorial_vs_career_hypothesis df = Call (ttest_ind tv cv true) k)
  /\ forall h : handler,
       exists rest,
         trace h (test_tutorial_vs_career_hypothesis df)
         = Called (ttest_ind tv cv true) :: rest
         /\ Forall (fun c => equal_var_of c = None) rest.
Proof.
  intros Hc Hv He Ht Hr tv cv.
  rewrite (tutorial_vs_career_program df cats vs er Hc Hv He), (enough_records _ _ Ht Hr).
  split; [eexists; reflexivity|].
  intros h. cbn [trace]. fold tv cv.
  destruct (h _ (ttest_ind tv cv true)) as [e|[t tp]].
  - exists []. split; [reflexivity|constructor].
  - cbn [trace].
    destruct (h _ (mannwhitneyu tv cv "two-sided")) as [e|[u up]];
      eexists; (split; [reflexivity|repeat constructor]).
Qed.

Lemma tutorial_vs_career_ttest_equal_var_witness :
  let tv := category_views "Tutorial"
              (repeat "Tutorial"%string 10 ++ repeat "Career"%string 10)
              (repeat 11 9 ++ [1] ++ repeat 10 10) in
  let cv := category_views "Career"
              (repeat "Tutorial"%string 10 ++ repeat "Career"%string 10)
              (repeat 11 9 ++ [1] ++ repeat 10 10) in
  (exists k, test_tutorial_vs_career_hypothesis tie_table = Call (ttest_ind tv cv true) k)
  /\ forall h : handler,
       exists rest,
         trace h (test_tutorial_vs_career_hypothesis tie_table)
         = Called (ttest_ind tv cv true) :: rest
         /\ Forall (fun c => equal_var_of c = None) rest.
Proof.
  apply (tutorial_vs_career_ttest_equal_var tie_table
           (repeat "Tutorial"%string 10 ++ repeat "Career"%string 10)
           (repeat 11 9 ++ [1] ++ repeat 10 10) (repeat (Fin (1 # 20)) 20)).
  - reflexivity.
  - reflexivity.
  - reflexivity.
  - vm_compute. lia.
  - vm_compute. lia.
Defined.

(** The claim as worded fails: on the sample table the t-test is called
    with [equal_var = True], not with the unequal-variance setting. *)
Lemma tutorial_vs_career_not_welch :
  map equal_var_of (trace sample_library (test_tutorial_vs_career_hypothesis tie_table))
  = [Some true; None]
  /\ ~ Forall (fun c => equal_var_of c <> Some true)
         (trace sample_library (test_tutorial_vs_career_hypothesis tie_table)).
Proof.
  split; [reflexivity|].
  intros H. vm_compute in H. inversion H as [|c l Hc Hl]. apply Hc. reflexivity.
Qed.







Lemma tutorial_vs_career_insufficient_data_witness :
  test_tutorial_vs_career_hypothesis keyword_table = Ret (InsufficientData, None)
  /\ forall h : handler,
       run h (test_tutorial_vs_career_hypothesis keyword_table)
       = inr (InsufficientData, None)
       /\ trace h (test_tutorial_vs_career_hypothesis keyword_table) = [].
Proof.
  apply (tutorial_vs_career_insufficient_data keyword_table
           ["Tutorial"; "Tutorial"]%string).
  - reflexivity.
  - right. vm_compute. lia.
Defined.

End TutorialVsCareer.

(* ===================================================================== *)
(** * Proofs: the day-of-week test *)
(* ===================================================================== *)

Section DayOfWeek.
Import YouTubeAnalytics.

Lemma run_bind_inr {A B} (h : handler) (m : Prog A) (f : A -> Prog B) b :
  run h (bind m f) = inr b -> exists a, run h m = inr a /\ run h (f a) = inr b.
Proof.
  rewrite run_bind. destruct (run h m) as [e|a]; [discriminate|]. eauto.
Qed.

(** The program of the test, once the two columns are known: the seven
    groups go to [f_oneway] as they are, empty or not. *)
Lemma day_of_week_program df days vs :
  df_columns df !! "day_of_week" = Some (SInt days) ->
  df_columns df !! "views" = Some (SInt vs) ->
  test_day_of_week_hypothesis df
  = Call (f_oneway (day_groups days vs)) (fun '(f_stat, p_val) =>
      if PyFloat.lt p_val alpha then
        bind (int_values df "views") (fun endog =>
        bind (int_values df "day_of_week") (fun groups =>
        bind (call (pairwise_tukeyhsd endog groups (5 # 100))) (fun _ =>
        bind (Pandas.column df "day_name") (fun _ =>
        Ret (Supported, {| f_statistic := f_stat; p_value := p_val |})))))
      else
        Ret (RejectedNotSignificant, {| f_statistic := f_stat; p_value := p_val |})).
Proof.
  intros Hd Hv. unfold test_day_of_week_hypothesis. cbn [seq map mapM].
  rewrite !(where_int_eq _ _ _ _ Hd). cbn [bind].
  rewrite !(int_values_select _ _ _ _ Hv). cbn [bind].
  reflexivity.
Qed.

Lemma day_of_week_verdicts (h : handler) df v r :
  run h (test_day_of_week_hypothesis df) = inr (v, r) ->
  v = Supported \/ v = RejectedNotSignificant.
Proof.
  unfold test_day_of_week_hypothesis. intros H.
  apply run_bind_inr in H as (groups & _ & H).
  apply run_bind_inr in H as ([f p] & _ & H).
  destruct (PyFloat.lt p alpha).
  - apply run_bind_inr in H as (endog & _ & H).
    apply run_bind_inr in H as (gs & _ & H).
    apply run_bind_inr in H as (s & _ & H).
    apply run_bind_inr in H as (c & _ & H).
    injection H as <- _. left. reflexivity.
  - injection H as <- _. right. reflexivity.
Qed.

(** C6, the code at a table with an empty day group. The test has no check
    on the groups: when the ANOVA of the seven groups comes back with a
    NaN p-value, as it does for an empty group, the outcome is the
    ordinary "rejected, not significant" conclusion; and no run of the
    test ever ends in an insufficient-data outcome. *)
Theorem day_of_week_empty_group_rejected (h : handler) df days vs f :
  df_columns df !! "day_of_week" = Some (SInt days) ->
  df_columns df !! "views" = Some (SInt vs) ->
  (exists i, In i [0; 1; 2; 3; 4; 5; 6] /\ day_group i days vs = []) ->
  h _ (f_oneway (day_groups days vs)) = inr (f, NaN) ->
  run h (test_day_of_week_hypothesis df)
  = inr (RejectedNotSignificant, {| f_statistic := f; p_value := NaN |})
  /\ forall (h' : handler) v r,
       run h' (test_day_of_week_hypothesis df) = inr (v, r) -> v <> InsufficientData.
Proof.
  intros Hd Hv _ Hf. split.
  - rewrite (day_of_week_program df days vs Hd Hv). cbn [run]. rewrite Hf. reflexivity.
  - intros h' v r H. destruct (day_of_week_verdicts h' df v r H); congruence.
Qed.

Lemma day_of_week_empty_group_rejected_witness :
  run sample_library (test_day_of_week_hypothesis no_sunday_table)
  = inr (RejectedNotSignificant, {| f_statistic := NaN; p_value := NaN |})
  /\ forall (h' : handler) v r,
       run h' (test_day_of_week_hypothesis no_sunday_table) = inr (v, r) ->
       v <> InsufficientData.
Proof.
  apply (day_of_week_empty_group_rejected sample_library no_sunday_table
           [0; 1; 2; 3; 4; 5] [120; 80; 95; 300; 15; 60] NaN).
  - reflexivity.
  - reflexivity.
  - exists 6. split; [simpl; tauto|reflexivity].
  - reflexivity.
Defined.

End DayOfWeek.

(* ===================================================================== *)
(** * Proofs: keyword frequency *)
(* ===================================================================== *)

Section Keywords.
Import YouTubeAnalytics.

Lemma nlargest_views df n vs :
  df_columns df !! "views" = Some (SInt vs) ->
  Pandas.nlargest n "views" df
  = let rows := firstn (Z.to_nat n)
                  (map fst (Pandas.sort_desc
                              (Pandas.zip_with pair (seq 0 (length vs)) vs))) in
    Ret {| df_len := length rows;
           df_columns := Pandas.series_take rows <$> df_columns df |}.
Proof. intros H. unfold Pandas.nlargest, Pandas.column. rewrite H. reflexivity. Qed.

Lemma keyword_frequency_default df v1 v2 titles :
  df_len df = 2%nat ->
  df_columns df !! "views" = Some (SInt [v1; v2]) ->
  df_columns df !! "title" = Some (SStr titles) ->
  analyze_keyword_frequency df (1 # 10) = Ret [].
Proof.
  intros Hlen Hv Ht. unfold analyze_keyword_frequency.
  rewrite (nlargest_views _ _ _ Hv), Hlen. cbv zeta. cbn [bind].
  unfold Pandas.column. cbn [df_columns]. rewrite lookup_fmap, Ht. reflexivity.
Qed.

Lemma keyword_frequency_program df top_percentile vs titles :
  df_columns df !! "views" = Some (SInt vs) ->
  df_columns df !! "title" = Some (SStr titles) ->
  analyze_keyword_frequency df top_percentile
  = let threshold :=
      PyFloat.trunc (inject_Z (Z.of_nat (df_len df)) * top_percentile) in
    let rows := firstn (Z.to_nat threshold)
                  (map fst (Pandas.sort_desc
                              (Pandas.zip_with pair (seq 0 (length vs)) vs))) in
    let keywords :=
      flat_map (fun t => PyStr.findall_words (PyStr.lower t))
        (Pandas.take_rows rows titles) in
    Ret (most_common 15
           (Counter (List.filter
                       (fun w => negb (mem w stop_words) && (2 <? String.length w)%nat)
                       keywords))).
Proof.
  intros Hv Ht. unfold analyze_keyword_frequency.
  rewrite (nlargest_views _ _ _ Hv). cbv zeta. cbn [bind].
  unfold Pandas.column. cbn [df_columns]. rewrite lookup_fmap, Ht. reflexivity.
Qed.

(** C10, as the code has it. For the table of the two records titled
    "SQL Tutorial for Beginners" and "Python Tutorial Basics", the default
    fraction of one tenth selects int(2 * 0.1) = 0 records and the keyword
    list is empty; with the fraction 1, which selects both records,
    "tutorial" is in the list with count 2. *)
Theorem keyword_frequency_two_titles df v1 v2 :
  df_len df = 2%nat ->
  df_columns df !! "views" = Some (SInt [v1; v2]) ->
  df_columns df !! "title"
  = Some (SStr ["SQL Tutorial for Beginners"; "Python Tutorial Basics"]%string) ->
  analyze_keyword_frequency df (1 # 10) = Ret []
  /\ exists l, analyze_keyword_frequency df 1 = Ret l
               /\ In ("tutorial"%string, 2) l
               /\ hd_error l = Some ("tutorial"%string, 2).
Proof.
  intros Hlen Hv Ht. split.
  - exact (keyword_frequency_default df v1 v2 _ Hlen Hv Ht).
  - rewrite (keyword_frequency_program df _ _ _ Hv Ht), Hlen.
    cbv zeta.
    replace (Z.to_nat (PyFloat.trunc (inject_Z (Z.of_nat 2) * 1))) with 2%nat
      by reflexivity.
    cbn [length seq Pandas.zip_with Pandas.sort_desc fold_left Pandas.insert_desc snd].
    destruct (v1 <? v2); eexists; (split; [reflexivity|]);
      vm_compute; auto.
Qed.

Lemma keyword_frequency_two_titles_witness :
  analyze_keyword_frequency keyword_table (1 # 10) = Ret []
  /\ exists l, analyze_keyword_frequency keyword_table 1 = Ret l
               /\ In ("tutorial"%string, 2) l
               /\ hd_error l = Some ("tutorial"%string, 2).
Proof.
  apply (keyword_frequency_two_titles keyword_table 1000 0); reflexivity.
Defined.

(** The claim as worded fails: with the default fraction the output for
    the two-record table is empty, so "tutorial" is not in it. *)
Lemma keyword_frequency_default_empty :
  map title sample_records
  = ["SQL Tutorial for Beginners"; "Python Tutorial Basics"]%string
  /\ run sample_library (analyze_keyword_frequency keyword_table (1 # 10)) = inr []
  /\ ~ (exists l, run sample_library (analyze_keyword_frequency keyword_table (1 # 10))
                  = inr l /\ In ("tutorial"%string, 2) l).
Proof.
  assert (E : run sample_library (analyze_keyword_frequency keyword_table (1 # 10))
              = inr []).
  { rewrite (keyword_frequency_default keyword_table 1000 0 _
               eq_refl eq_refl eq_refl). reflexivity. }
  split; [reflexivity|]. split; [exact E|].
  intros (l & Hl & Hin). rewrite E in Hl. injection Hl as <-. exact Hin.
Qed.

End Keywords.

(* ===================================================================== *)
(** * Further properties: ordering and selection of rows *)
(* ===================================================================== *)

Section Ordering.
Import YouTubeAnalytics.

Lemma insert_desc_perm {A} (x : A * Z) l : Permutation (Pandas.insert_desc x l) (x :: l).
Proof.
  induction l as [|y l IH]; simpl; [reflexivity|].
  destruct (snd y <? snd x); [reflexivity|].
  rewrite IH. apply perm_swap.
Qed.

Lemma fold_insert_perm {A} (l acc : list (A * Z)) :
  Permutation (fold_left (fun acc x => Pandas.insert_desc x acc) l acc) (l ++ acc).
Proof.
  revert acc. induction l as [|x l IH]; intros acc; simpl; [reflexivity|].
  rewrite IH, insert_desc_perm. symmetry. apply Permutation_middle.
Qed.

Lemma sort_desc_perm {A} (l : list (A * Z)) : Permutation (Pandas.sort_desc l) l.
Proof. unfold Pandas.sort_desc. rewrite fold_insert_perm, app_nil_r. reflexivity. Qed.

Lemma insert_desc_sorted {A} (x : A * Z) l :
  descending_by_snd l -> descending_by_snd (Pandas.insert_desc x l).
Proof.
  unfold descending_by_snd. induction l as [|y l IH]; intros Hs; simpl.
  - repeat constructor.
  - apply StronglySorted_inv in Hs as [Hl Hy].
    destruct (Z.ltb_spec (snd y) (snd x)) as [Hlt|Hge].
    + constructor; [constructor; assumption|].
      constructor; [lia|]. eapply Forall_impl; [exact Hy|]. simpl. intros a Ha. lia.
    + constructor; [apply IH; exact Hl|].
      rewrite (insert_desc_perm x l). constructor; [exact Hge|exact Hy].
  Qed.

Lemma fold_insert_sorted {A} (l acc : list (A * Z)) :
  descending_by_snd acc ->
  descending_by_snd (fold_left (fun acc x => Pandas.insert_desc x acc) l acc).
Proof.
  revert acc. induction l as [|x l IH]; intros acc Hs; simpl; [exact Hs|].
  apply IH, insert_desc_sorted, Hs.
Qed.

Lemma sort_desc_sorted {A} (l : list (A * Z)) : descending_by_snd (Pandas.sort_desc l).
Proof. apply fold_insert_sorted. constructor. Qed.




Lemma descending_map_snd {A} (l : list (A * Z)) :
  descending_by_snd l -> descending (map snd l).
Proof.
  unfold descending_by_snd, descending. induction 1 as [|p l Hs IH Hp]; simpl; constructor.
  - exact IH.
  - apply Forall_map. exact Hp.
Qed.





End Ordering.

(* ===================================================================== *)
(** * Further properties: keyword frequency *)
(* ===================================================================== *)

Section KeywordCounts.
Import YouTubeAnalytics.

Lemma counter_get_add w c w' :
  counter_get (counter_add w c) w'
  = counter_get c w' + (if String.eqb w w' then 1 else 0).
Proof.
  unfold counter_get. induction c as [|[k n] c IH]; simpl.
  - destruct (String.eqb w w'); reflexivity.
  - destruct (String.eqb_spec k w) as [->|Hkw]; simpl.
    + destruct (String.eqb w w'); [reflexivity|lia].
    + destruct (String.eqb_spec k w') as [->|Hkw'].
      * destruct (String.eqb_spec w w'); [congruence|lia].
      * exact IH.
Qed.

Lemma counter_add_keys w c :
  map fst (counter_add w c)
  = if existsb (String.eqb w) (map fst c) then map fst c else map fst c ++ [w].
Proof.
  induction c as [|[k n] c IH]; simpl; [reflexivity|].
  destruct (String.eqb_spec k w) as [->|Hkw]; simpl.
  - rewrite String.eqb_refl. reflexivity.
  - rewrite IH. destruct (String.eqb_spec w k) as [->|_]; [congruence|]. simpl.
    destruct (existsb (String.eqb w) (map fst c)); reflexivity.
Qed.

Lemma existsb_eqb_In w (l : list string) : existsb (String.eqb w) l = true <-> In w l.
Proof.
  rewrite existsb_exists. split.
  - intros (x & Hx & E). apply String.eqb_eq in E. congruence.
  - intros H. exists w. split; [exact H|apply String.eqb_refl].
Qed.

Lemma counter_add_NoDup w c : NoDup (map fst c) -> NoDup (map fst (counter_add w c)).
Proof.
  intros H. rewrite counter_add_keys.
  destruct (existsb (String.eqb w) (map fst c)) eqn:E; [exact H|].
  apply NoDup_app. split; [exact H|]. split.
  - intros x Hx [->|[]]%list_elem_of_In. apply list_elem_of_In, existsb_eqb_In in Hx. congruence.
  - apply NoDup_singleton.
Qed.

Lemma counter_get_In c w n :
  NoDup (map fst c) -> In (w, n) c -> counter_get c w = n.
Proof.
  unfold counter_get. induction c as [|[k m] c IH]; intros Hnd Hin; [destruct Hin|].
  simpl in *. apply NoDup_cons in Hnd as [Hk Hnd].
  destruct Hin as [[= -> ->]|Hin].
  - rewrite String.eqb_refl. reflexivity.
  - destruct (String.eqb_spec k w) as [->|_]; [|auto].
    exfalso. apply Hk, list_elem_of_In. apply (in_map fst) in Hin. exact Hin.
Qed.

(** [Counter(l)] holds each word of [l] once, with its number of
    occurrences. *)
Lemma Counter_spec_gen (l : list string) c :
  NoDup (map fst c) ->
  let c' := fold_left (fun c w => counter_add w c) l c in
  NoDup (map fst c')
  /\ (forall w, counter_get c' w = counter_get c w + Z.of_nat (count_occ string_dec l w))
  /\ (forall w, In w (map fst c') -> In w (map fst c) \/ In w l).
Proof.
  revert c. induction l as [|x l IH]; intros c Hnd; simpl.
  - split; [exact Hnd|]. split; [intros; lia|auto].
  - destruct (IH (counter_add x c) (counter_add_NoDup x c Hnd)) as (H1 & H2 & H3).
    split; [exact H1|]. split.
    + intros w. rewrite H2, counter_get_add.
      destruct (string_dec x w) as [->|Hne].
      * rewrite String.eqb_refl. lia.
      * destruct (String.eqb_spec x w); [congruence|lia].
    + intros w Hw. destruct (H3 w Hw) as [Hc|Hl]; [|auto].
      rewrite counter_add_keys in Hc.
      destruct (existsb (String.eqb x) (map fst c)); [auto|].
      apply in_app_or in Hc as [Hc|[->|[]]]; auto.
Qed.

Lemma Counter_In (l : list string) w n :
  In (w, n) (Counter l) ->
  n = Z.of_nat (count_occ string_dec l w) /\ In w l.
Proof.
  intros Hin. destruct (Counter_spec_gen l [] (NoDup_nil_2 (A:=string))) as (Hnd & Hget & Hkeys).
  fold (Counter l) in Hnd, Hget, Hkeys.
  split.
  - rewrite <- (counter_get_In _ _ _ Hnd Hin), Hget. reflexivity.
  - destruct (Hkeys w) as [[]|H]; [|exact H]. apply (in_map fst) in Hin. exact Hin.
Qed.

Lemma Counter_NoDup (l : list string) : NoDup (map fst (Counter l)).
Proof. apply (Counter_spec_gen l [] (NoDup_nil_2 (A:=string))). Qed.

Lemma count_occ_filter (f : string -> bool) l w :
  f w = true -> count_occ string_dec (List.filter f l) w = count_occ string_dec l w.
Proof.
  intros Hw. induction l as [|x l IH]; simpl; [reflexivity|].
  destruct (f x) eqn:E; simpl.
  - destruct (string_dec x w); rewrite IH; reflexivity.
  - destruct (string_dec x w) as [->|_]; [congruence|exact IH].
Qed.

Lemma take_rows_In {A} (rows : list nat) (l : list A) x :
  In x (Pandas.take_rows rows l) -> In x l.
Proof.
  unfold Pandas.take_rows. intros H. apply list_elem_of_In, list_elem_of_omap in H.
  destruct H as (i & _ & Hi). apply list_elem_of_In. eapply list_elem_of_lookup_2. exact Hi.
Qed.

Lemma descending_firstn n l : descending l -> descending (firstn n l).
Proof.
  unfold descending. intros H. revert n.
  induction H as [|x l Hs IH Hx]; intros [|n]; simpl; try constructor.
  - apply IH.
  - apply Forall_take. exact Hx.
Qed.

Lemma firstn_In_sub {A} n (l : list A) x : In x (firstn n l) -> In x l.
Proof. intros H. rewrite <- (firstn_skipn n l). apply in_or_app. left. exact H. Qed.

(** X2. Whatever the fraction, the keyword list comes from titles of the
    table, has at most 15 entries with distinct words and non-increasing
    counts, and each entry is a word that is not a stop word, is longer than
    2 characters, and is given with the exact number of its occurrences in
    the selected titles. *)
Theorem keyword_frequency_counts df top_percentile vs titles :
  df_columns df !! "views" = Some (SInt vs) ->
  df_columns df !! "title" = Some (SStr titles) ->
  exists out selected,
    analyze_keyword_frequency df top_percentile = Ret out
    /\ (forall t, In t selected -> In t titles)
    /\ (length out <= 15)%nat
    /\ NoDup (map fst out)
    /\ descending (map snd out)
    /\ forall w n, In (w, n) out ->
         kept_word w = true
         /\ 1 <= n
         /\ n = Z.of_nat (count_occ string_dec (title_words selected) w).
Proof.
  intros Hv Ht. rewrite (keyword_frequency_program df top_percentile vs titles Hv Ht).
  cbv zeta.
  set (rows := firstn _ _).
  set (kw := List.filter _ _).
  exists (most_common 15 (Counter kw)), (Pandas.take_rows rows titles).
  split; [reflexivity|].
  split; [intros t; apply take_rows_In|].
  unfold most_common.
  split; [apply firstn_le_length|].
  split.
  { rewrite <- firstn_map. eapply sublist_NoDup; [|apply sublist_take].
    rewrite (sort_desc_perm (Counter kw)). apply Counter_NoDup. }
  split.
  { rewrite <- firstn_map. apply descending_firstn, descending_map_snd, sort_desc_sorted. }
  intros w n Hin. apply firstn_In_sub in Hin.
  apply (Permutation_in _ (sort_desc_perm (Counter kw))) in Hin.
  apply Counter_In in Hin as [Hn Hw].
  subst kw. apply filter_In in Hw as [Hw Hk].
  fold (title_words (Pandas.take_rows rows titles)) in Hn, Hw.
  change (kept_word w = true) in Hk.
  split; [exact Hk|].
  rewrite (count_occ_filter _ _ _ Hk) in Hn.
  split; [|exact Hn].
  subst n. apply (count_occ_In string_dec) in Hw. lia.
Qed.

Lemma keyword_frequency_counts_witness :
  exists out selected,
    analyze_keyword_frequency keyword_table 1 = Ret out
    /\ (forall t, In t selected -> In t (map title sample_records))
    /\ (length out <= 15)%nat
    /\ NoDup (map fst out)
    /\ descending (map snd out)
    /\ forall w n, In (w, n) out ->
         kept_word w = true
         /\ 1 <= n
         /\ n = Z.of_nat (count_occ string_dec (title_words selected) w).
Proof.
  apply (keyword_frequency_counts keyword_table 1 [1000; 0] (map title sample_records));
    reflexivity.
Defined.

(** X3. With the default fraction of one tenth a table of fewer than ten
    videos selects int(len * 0.1) = 0 of them: the keyword list is empty. *)
Theorem keyword_frequency_small_table df vs titles :
  df_columns df !! "views" = Some (SInt vs) ->
  df_columns df !! "title" = Some (SStr titles) ->
  (df_len df < 10)%nat ->
  analyze_keyword_frequency df (1 # 10) = Ret [].
Proof.
  intros Hv Ht Hlen. rewrite (keyword_frequency_program df _ vs titles Hv Ht).
  cbv zeta.
  assert (E : PyFloat.trunc (inject_Z (Z.of_nat (df_len df)) * (1 # 10)) = 0).
  { unfold PyFloat.trunc, Qmult, inject_Z. simpl Qnum. simpl Qden.
    apply Z.quot_small. lia. }
  rewrite E. reflexivity.
Qed.

Lemma keyword_frequency_small_table_witness :
  analyze_keyword_frequency keyword_table (1 # 10) = Ret [].
Proof.
  apply (keyword_frequency_small_table keyword_table [1000; 0] (map title sample_records)).
  - reflexivity.
  - reflexivity.
  - vm_compute. lia.
Defined.

End KeywordCounts.

(* ===================================================================== *)
(** * Further properties: feature derivation *)
(* ===================================================================== *)

Section DerivedColumns.
Import YouTubeDataProcessor.

Lemma truediv_finite a d :
  d <> 0 -> PyFloat.truediv a d = Fin (Qred (inject_Z a / inject_Z d)).
Proof.
  intros Hd. unfold PyFloat.truediv.
  destruct (Z.eqb_spec d 0); [congruence|reflexivity].
Qed.





Lemma minutes_le sec k :
  Qle_bool (Qred (inject_Z sec / inject_Z 60)) (Qmake k 1) = (sec <=? 60 * k).
Proof.
  destruct (Z.leb_spec sec (60 * k)) as [H|H].
  - apply Qle_bool_iff. rewrite Qred_correct.
    unfold Qle, Qdiv, Qmult, Qinv, inject_Z. simpl. lia.
  - apply Qle_bool_false. rewrite Qred_correct.
    unfold Qlt, Qdiv, Qmult, Qinv, inject_Z. simpl. lia.
Qed.

Lemma cut_minutes sec :
  Pandas.cut bins labels (PyFloat.truediv sec 60) = seconds_class sec.
Proof.
  rewrite truediv_finite by discriminate.
  change (Pandas.cut bins labels (Fin ?q)) with (duration_category q).
  rewrite duration_category_cases. unfold seconds_class.
  rewrite (minutes_le sec 0), (minutes_le sec 5), (minutes_le sec 15),
    (minutes_le sec 30), (minutes_le sec 60).
  reflexivity.
Qed.

(** X5. The duration class recorded for a row is decided by the whole
    seconds parsed from its duration text, with the bounds 300, 900, 1800
    and 3600 seconds belonging to the class below; a duration that parses to
    0 seconds, as every unreadable one does, is left without a class. *)
Theorem duration_category_by_seconds (h : handler) (parse : string -> Timestamp)
    rs (df : positive) (σ : store) :
  σ !! df = Some (raw_frame rs) ->
  (forall r, In r rs -> h _ (to_datetime (published r)) = inr (parse (published r))) ->
  exists (σ' : store) d secs classes,
    run h (process_dataframe df σ) = inr (df, σ')
    /\ σ' !! df = Some d
    /\ df_columns d !! "duration_sec" = Some (SInt secs)
    /\ df_columns d !! "duration_category" = Some (SCat classes)
    /\ forall (i : nat) r, rs !! i = Some r ->
         secs !! i = Some (duration_to_seconds (duration r))
         /\ classes !! i = Some (seconds_class (duration_to_seconds (duration r)))
         /\ (seconds_class (duration_to_seconds (duration r)) = None
             <-> duration_to_seconds (duration r) = 0).
Proof.
  intros Hdf Hparse.
  eexists _, _, _, _.
  split; [apply (process_dataframe_run h parse rs df σ Hdf Hparse)|].
  split; [apply lookup_insert_eq|].
  split; [reflexivity|]. split; [reflexivity|].
  intros i r Hr. rewrite !map_map, !list_lookup_fmap, Hr. simpl.
  split; [reflexivity|]. split; [rewrite cut_minutes; reflexivity|].
  pose proof (duration_to_seconds_nonneg (duration r)) as Hpos.
  unfold seconds_class.
  repeat match goal with
         | |- context [?a <=? ?b] => destruct (Z.leb_spec a b)
         end; split; intros; try discriminate; try reflexivity; lia.
Qed.

Lemma duration_category_by_seconds_witness :
  exists (σ' : store) d secs classes,
    run sample_library (process_dataframe 1%positive sample_store) = inr (1%positive, σ')
    /\ σ' !! 1%positive = Some d
    /\ df_columns d !! "duration_sec" = Some (SInt secs)
    /\ df_columns d !! "duration_category" = Some (SCat classes)
    /\ forall (i : nat) r, sample_records !! i = Some r ->
         secs !! i = Some (duration_to_seconds (duration r))
         /\ classes !! i = Some (seconds_class (duration_to_seconds (duration r)))
         /\ (seconds_class (duration_to_seconds (duration r)) = None
             <-> duration_to_seconds (duration r) = 0).
Proof.
  apply (duration_category_by_seconds sample_library (fun _ => sample_timestamp)
           sample_records 1%positive sample_store).
  - reflexivity.
  - intros r _. reflexivity.
Defined.

End DerivedColumns.

(* ===================================================================== *)
(** * Further properties: missing columns, and the analyses after derivation *)
(* ===================================================================== *)

Ltac column_lookup_without :=
  unfold Pandas.assign, raw_frame_without, raw_frame; cbn [df_columns];
  repeat (rewrite lookup_insert_ne by discriminate);
  first [ apply lookup_insert_eq
        | rewrite lookup_delete_ne by discriminate;
          repeat (rewrite lookup_insert_ne by discriminate); apply lookup_insert_eq ].

Ltac column_absent :=
  unfold Pandas.assign, raw_frame_without, raw_frame; cbn [df_columns];
  repeat (rewrite lookup_insert_ne by discriminate); apply lookup_delete_eq.

Section MissingColumns.
Import YouTubeDataProcessor YouTubeAnalytics.

Lemma exec_getitem_missing {A B} (h : handler) (l : positive) name
    (k1 : Series -> St B) (k : B -> St A) (σ : store) d :
  df_columns d !! name = None ->
  exec h (st_bind (st_bind (getitem l name) k1) k) (<[l := d]> σ) = inl (KeyError name).
Proof.
  intros Hn. rewrite !exec_bind. unfold exec at 1, getitem.
  rewrite lookup_insert_eq. unfold Pandas.column. rewrite Hn. reflexivity.
Qed.

Ltac run_statement h parse Hparse :=
  first [ erewrite exec_read_str by column_lookup_without
        | erewrite exec_read_int by column_lookup_without
        | erewrite exec_read_float by column_lookup_without
        | erewrite exec_read_time by column_lookup_without
        | rewrite exec_write
        | rewrite (exec_parse h parse);
          [|intros x Hx; apply in_map_iff in Hx as (r & <- & Hr); apply Hparse; exact Hr] ].

(** X6. A raw table that lacks one of the six columns the derivation reads
    ([duration], [likes], [views], [comments], [published], [title]) makes
    [process_dataframe] raise a KeyError that names the missing column. *)
Theorem process_dataframe_missing_column (h : handler) (parse : string -> Timestamp)
    name rs (df : positive) (σ : store) :
  In name required_columns ->
  σ !! df = Some (raw_frame_without name rs) ->
  (forall r, In r rs -> h _ (to_datetime (published r)) = inr (parse (published r))) ->
  run h (process_dataframe df σ) = inl (KeyError name).
Proof.
  intros Hname Hdf Hparse.
  rewrite <- (insert_id σ df _ Hdf).
  change (run h (process_dataframe df ?s)) with (exec h (process_dataframe df) s).
  unfold process_dataframe, required_columns in *. simpl in Hname.
  repeat (destruct Hname as [<-|Hname];
          [repeat run_statement h parse Hparse;
           apply exec_getitem_missing; column_absent|]).
  destruct Hname.
Qed.

Lemma process_dataframe_missing_column_witness :
  run sample_library
    (process_dataframe 1%positive
       {[ 1%positive := raw_frame_without "views" sample_records ]})
  = inl (KeyError "views").
Proof.
  apply (process_dataframe_missing_column sample_library (fun _ => sample_timestamp)
           "views" sample_records 1%positive).
  - simpl. tauto.
  - reflexivity.
  - intros r _. reflexivity.
Defined.

End MissingColumns.

Section AfterDerivation.
Import YouTubeDataProcessor YouTubeAnalytics.




End AfterDerivation.

(* ===================================================================== *)
(** * Further properties: the duration parser and the classifier *)
(* ===================================================================== *)

Section ParserAndClassifier.
Import PyStr YouTubeDataProcessor.

Lemma re_search_skip_days u d t :
  is_digit u = false -> u <> "D"%char -> all_digits d = true ->
  re_search u ("P" +:+ d +:+ "D" +:+ t) = re_search u t.
Proof.
  intros Hu Hne Hd.
  rewrite (re_search_skip_nodigit u "P") by reflexivity.
  rewrite re_search_skip_run; [|assumption..|].
  - apply (re_search_skip_nodigit u "D"). reflexivity.
  - change ("D" +:+ t) with (String "D" t). unfold stops.
    rewrite (proj2 (Ascii.eqb_neq "D" u)) by congruence. reflexivity.
Qed.

(** X8. A day component in front of the time part is not counted: for
    "P<d>D" followed by a well-formed encoding, the result is that of the
    time part alone, hours*3600 + minutes*60 + seconds. *)
Theorem duration_to_seconds_ignores_days d e :
  all_digits d = true ->
  well_formed e = true ->
  duration_to_seconds ("P" +:+ d +:+ "D" +:+ render e)
  = magnitude (enc_hours e) * 3600 + magnitude (enc_minutes e) * 60
    + magnitude (enc_seconds e).
Proof.
  intros Hd He. rewrite <- (duration_to_seconds_render e He).
  unfold duration_to_seconds.
  rewrite !re_search_skip_days by (reflexivity || discriminate || assumption).
  reflexivity.
Qed.

Lemma duration_to_seconds_ignores_days_witness :
  duration_to_seconds "P1DT2H" = 2 * 3600 + 0 * 60 + 0.
Proof.
  apply (duration_to_seconds_ignores_days "1"
           {| enc_prefix := "T"; enc_hours := Some "2"%string;
              enc_minutes := None; enc_seconds := None |}); reflexivity.
Defined.

Lemma contains_extend kw pre t post :
  contains kw (lower t) = true -> contains kw (lower (pre +:+ t +:+ post)) = true.
Proof.
  rewrite !contains_spec. intros (a & b & H).
  rewrite !lower_app, H. exists (lower pre +:+ a), (b +:+ lower post).
  rewrite !app_assoc_str. reflexivity.
Qed.

Lemma existsb_extend kws pre t post :
  existsb (fun kw => contains kw (lower t)) kws = true ->
  existsb (fun kw => contains kw (lower (pre +:+ t +:+ post))) kws = true.
Proof.
  rewrite !existsb_exists. intros (kw & Hin & Hc). exists kw.
  split; [exact Hin|]. apply contains_extend. exact Hc.
Qed.

Lemma rank_in_first_category cats pre t post :
  NoDup (map fst cats ++ ["Other"%string]) ->
  (rank_in cats (first_category cats (lower (pre +:+ t +:+ post)))
   <= rank_in cats (first_category cats (lower t)))%nat.
Proof.
  induction cats as [|[c kws] rest IH]; intros Hnd; [simpl; lia|].
  simpl in Hnd. apply NoDup_cons in Hnd as [Hc Hnd].
  cbn [first_category].
  destruct (existsb (fun kw => contains kw (lower t)) kws) eqn:Et.
  - rewrite (existsb_extend kws pre t post Et). cbn [rank_in].
    rewrite String.eqb_refl. lia.
  - destruct (existsb (fun kw => contains kw (lower (pre +:+ t +:+ post))) kws) eqn:Ex;
      cbn [rank_in].
    + rewrite String.eqb_refl. lia.
    + assert (Hdiff : forall s, String.eqb c (first_category rest s) = false).
      { intros s. apply String.eqb_neq. intros ->. apply Hc.
        apply list_elem_of_In, first_category_label. }
      rewrite !Hdiff. apply le_n_S, IH, Hnd.
Qed.

(** X9. Adding text around a title never moves it to a later category:
    the label of [pre ++ t ++ post] comes at or before the label of [t] in
    the order Tutorial, Career, Project, Tools, Q&A/Livestream, Advice,
    Other.  In particular a Tutorial title stays Tutorial. *)
Theorem categorize_extension_monotone pre t post :
  (category_rank (categorize_video_type (pre +:+ t +:+ post))
   <= category_rank (categorize_video_type t))%nat
  /\ (categorize_video_type t = "Tutorial"%string ->
      categorize_video_type (pre +:+ t +:+ post) = "Tutorial"%string).
Proof.
  assert (Hnd : NoDup (map fst categories ++ ["Other"%string])).
  { apply NoDup_ListNoDup. vm_compute.
    repeat (constructor; [simpl; intuition discriminate|]). constructor. }
  assert (Hle := rank_in_first_category categories pre t post Hnd).
  split; [exact Hle|].
  unfold categorize_video_type in *. intros Ht. rewrite Ht in Hle.
  pose proof (first_category_label categories (lower (pre +:+ t +:+ post))) as Hin.
  remember (first_category categories (lower (pre +:+ t +:+ post))) as r eqn:Er.
  clear Er Ht. simpl in Hin.
  repeat (destruct Hin as [<-|Hin]; [try reflexivity; vm_compute in Hle; lia|]).
  destruct Hin.
Qed.

Lemma categorize_extension_monotone_witness :
  categorize_video_type "SQL Tutorial"%string = "Tutorial"%string
  /\ categorize_video_type ("My " +:+ "SQL Tutorial" +:+ " and career advice")
     = "Tutorial"%string.
Proof.
  split; [vm_compute; reflexivity|].
  apply (proj2 (categorize_extension_monotone "My " "SQL Tutorial" " and career advice")).
  vm_compute. reflexivity.
Defined.

End ParserAndClassifier.

(* ===================================================================== *)
(** * Further properties: the hypothesis tests and the summary *)
(* ===================================================================== *)

Section TestsAndSummary.
Import YouTubeAnalytics.

(** X10. The day-of-week test returns the statistics of [f_oneway]
    unchanged; Tukey's test is run exactly when the ANOVA p-value is below
    0.05, on the whole [views] and [day_of_week] columns at level 0.05; an
    exception of [f_oneway] is not caught; and the line of the summary for
    this hypothesis agrees with the conclusion of the test. *)
Theorem day_of_week_post_hoc (h : handler) df days vs names :
  df_columns df !! "day_of_week" = Some (SInt days) ->
  df_columns df !! "views" = Some (SInt vs) ->
  df_columns df !! "day_name" = Some (SStr names) ->
  let anova := f_oneway (day_groups days vs) in
  let tukey := pairwise_tukeyhsd vs days (5 # 100) in
  (forall e, h _ anova = inl e ->
     run h (test_day_of_week_hypothesis df) = inl e
     /\ trace h (test_day_of_week_hypothesis df) = [Called anova])
  /\ (forall f p, h _ anova = inr (f, p) -> PyFloat.lt p alpha = false ->
        run h (test_day_of_week_hypothesis df)
        = inr (RejectedNotSignificant, {| f_statistic := f; p_value := p |})
        /\ trace h (test_day_of_week_hypothesis df) = [Called anova]
        /\ summary_h2 {| f_statistic := f; p_value := p |} = false)
  /\ (forall f p s, h _ anova = inr (f, p) -> PyFloat.lt p alpha = true ->
        h _ tukey = inr s ->
        run h (test_day_of_week_hypothesis df)
        = inr (Supported, {| f_statistic := f; p_value := p |})
        /\ trace h (test_day_of_week_hypothesis df) = [Called anova; Called tukey]
        /\ summary_h2 {| f_statistic := f; p_value := p |} = true).
Proof.
  intros Hd Hv Hn anova tukey.
  rewrite (day_of_week_program df days vs Hd Hv). fold anova.
  split; [|split].
  - intros e He. cbn [run trace]. rewrite He. split; reflexivity.
  - intros f p Hf Hp. cbn [run trace]. rewrite Hf, Hp. cbn [run trace].
    split; [reflexivity|]. split; [reflexivity|exact Hp].
  - intros f p s Hf Hp Hs. cbn [run trace]. rewrite Hf, Hp.
    unfold int_values, Pandas.column. rewrite Hv, Hd, Hn.
    cbn [bind Pandas.as_int call run trace]. fold tukey. rewrite Hs.
    cbn [run trace]. split; [reflexivity|]. split; [reflexivity|exact Hp].
Qed.

Lemma day_of_week_post_hoc_witness :
  let anova := f_oneway (day_groups [0; 1; 2; 3; 4; 5] [120; 80; 95; 300; 15; 60]) in
  run sample_library (test_day_of_week_hypothesis no_sunday_table)
  = inr (RejectedNotSignificant, {| f_statistic := NaN; p_value := NaN |})
  /\ trace sample_library (test_day_of_week_hypothesis no_sunday_table) = [Called anova]
  /\ summary_h2 {| f_statistic := NaN; p_value := NaN |} = false.
Proof.
  intros anova.
  apply (proj1 (proj2 (day_of_week_post_hoc sample_library no_sunday_table
                         [0; 1; 2; 3; 4; 5] [120; 80; 95; 300; 15; 60]
                         ["Monday"; "Tuesday"; "Wednesday"; "Thursday"; "Friday";
                          "Saturday"]%string eq_refl eq_refl eq_refl)) NaN NaN);
    reflexivity.
Defined.

Lemma select_or {A} (m1 m2 : list bool) (vs : list A) :
  length m1 = length m2 ->
  Forall2 (fun a b => a && b = false) m1 m2 ->
  Permutation (Pandas.select m1 vs ++ Pandas.select m2 vs)
              (Pandas.select (Pandas.zip_with orb m1 m2) vs).
Proof.
  intros Hlen Hdis. revert vs.
  induction Hdis as [|a b m1 m2 Hab Hdis IH]; intros vs; simpl.
  - destruct vs; reflexivity.
  - injection Hlen as Hlen. destruct vs as [|v vs]; [reflexivity|].
    destruct a, b; simpl in *; try discriminate.
    + rewrite IH by exact Hlen. reflexivity.
    + rewrite <- IH by exact Hlen. symmetry. apply Permutation_middle.
    + apply IH, Hlen.
Qed.

Lemma select_none {A} (n : nat) (vs : list A) : Pandas.select (repeat false n) vs = [].
Proof.
  revert vs. induction n as [|n IH]; intros vs; simpl; [reflexivity|].
  destruct vs; [reflexivity|apply IH].
Qed.








(** X12. Whatever the library answers, when the comparison returns a
    result dict its [hypothesis_supported] flag is true exactly when the
    printed conclusion is "supported", both groups have at least two
    records, and the summary line of [main] repeats that conclusion; when it
    returns [None] the conclusion is the insufficient-data notice. *)
Theorem tutorial_vs_career_flag_and_verdict (h : handler) df v r :
  run h (test_tutorial_vs_career_hypothesis df) = inr (v, r) ->
  match r with
  | Some res =>
      (hypothesis_supported res = true <-> v = Supported)
      /\ v <> InsufficientData
      /\ (2 <= tutorial_count res)%nat /\ (2 <= career_count res)%nat
      /\ (summary_h3 r = Some true <-> v = Supported)
  | None => v = InsufficientData /\ summary_h3 r = None
  end.
Proof.
  unfold test_tutorial_vs_career_hypothesis. intros H.
  apply run_bind_inr in H as (tutorial_videos & _ & H).
  apply run_bind_inr in H as (career_videos & _ & H).
  destruct (df_len tutorial_videos <? 2)%nat eqn:Et;
    [injection H as <- <-; split; reflexivity|].
  destruct (df_len career_videos <? 2)%nat eqn:Ec;
    [injection H as <- <-; split; reflexivity|].
  cbn [orb] in H.
  apply run_bind_inr in H as (tutorial_views & _ & H).
  apply run_bind_inr in H as (career_views & _ & H).
  apply run_bind_inr in H as ([t tp] & _ & H).
  apply run_bind_inr in H as ([u up] & _ & H).
  cbv zeta in H.
  apply run_bind_inr in H as (x & _ & H).
  apply run_bind_inr in H as (y & _ & H).
  injection H as <- <-. cbn [hypothesis_supported tutorial_count career_count summary_h3].
  apply Nat.ltb_ge in Et, Ec.
  destruct (PyFloat.lt up alpha),
    (PyFloat.gt (PyFloat.mean tutorial_views) (PyFloat.mean career_views));
    simpl; repeat split; try assumption; try discriminate; try reflexivity;
    intros; discriminate.
Qed.

Lemma tutorial_vs_career_flag_and_verdict_witness :
  exists res,
    run sample_library (test_tutorial_vs_career_hypothesis tie_table)
    = inr (RejectedReverse, Some res)
    /\ (hypothesis_supported res = true <-> RejectedReverse = Supported)
    /\ RejectedReverse <> InsufficientData
    /\ (2 <= tutorial_count res)%nat /\ (2 <= career_count res)%nat
    /\ (summary_h3 (Some res) = Some true <-> RejectedReverse = Supported).
Proof.
  eexists. split; [reflexivity|].
  apply (tutorial_vs_career_flag_and_verdict sample_library tie_table RejectedReverse
           (Some _) eq_refl).
Defined.



End TestsAndSummary.

(* ===================================================================== *)
(** * Further properties: extraction *)
(* ===================================================================== *)

Section Extraction.
Import YouTubeDataExtractor.

Lemma firstn_plus {A} (a b : nat) (l : list A) :
  firstn (a + b) l = firstn a l ++ firstn b (skipn a l).
Proof.
  revert l. induction a as [|a IH]; intros l; [reflexivity|].
  destruct l as [|x l]; simpl.
  - destruct b; reflexivity.
  - f_equal. apply IH.
Qed.

Lemma chunks_prefix {A} (c n : nat) (l : list A) :
  concat (map (fun k => firstn c (skipn (c * k) l)) (seq 0 n)) = firstn (c * n) l.
Proof.
  induction n as [|n IH].
  - rewrite Nat.mul_0_r. reflexivity.
  - rewrite seq_S, map_app, concat_app, IH. simpl.
    rewrite app_nil_r, Nat.mul_succ_r. symmetry. apply firstn_plus.
Qed.

(** X14. The batches of [get_video_details] cut the list of ids into
    consecutive pieces: put together they are the list itself, and each
    holds at least one id and at most 50. *)
Theorem batches_partition (video_ids : list string) :
  concat (batches video_ids) = video_ids
  /\ Forall (fun batch => (1 <= length batch <= 50)%nat) (batches video_ids).
Proof.
  unfold batches. split.
  - rewrite chunks_prefix. apply firstn_all2.
    pose proof (Nat.div_mod_eq (length video_ids + 49) 50) as E.
    pose proof (Nat.mod_upper_bound (length video_ids + 49) 50) as B. lia.
  - apply Forall_forall. intros b Hb. apply list_elem_of_In, in_map_iff in Hb.
    destruct Hb as (k & <- & Hk). apply in_seq in Hk.
    rewrite length_firstn, length_skipn.
    pose proof (Nat.div_mod_eq (length video_ids + 49) 50) as E.
    pose proof (Nat.mod_upper_bound (length video_ids + 49) 50) as B. lia.
Qed.

Lemma all_present_app {A} (l1 l2 : list (option A)) :
  all_present (l1 ++ l2)
  = match all_present l1, all_present l2 with
    | Some a, Some b => Some (a ++ b)
    | _, _ => None
    end.
Proof.
  induction l1 as [|[x|] l1 IH]; simpl.
  - destruct (all_present l2); reflexivity.
  - rewrite IH. destruct (all_present l1), (all_present l2); reflexivity.
  - reflexivity.
Qed.

Lemma all_present_In {A} (l : list (option A)) :
  In None l -> all_present l = None.
Proof.
  induction l as [|[x|] l IH]; simpl; intros H.
  - destruct H.
  - destruct H as [H|H]; [discriminate|]. rewrite (IH H). reflexivity.
  - reflexivity.
Qed.

Lemma all_present_length {A} (l : list (option A)) xs :
  all_present l = Some xs -> length xs = length l.
Proof.
  revert xs. induction l as [|[x|] l IH]; simpl; intros xs H.
  - injection H as <-. reflexivity.
  - destruct (all_present l) as [ys|]; [|discriminate].
    injection H as <-. simpl. f_equal. apply IH. reflexivity.
  - discriminate.
Qed.

Lemma fetch_batches_spec py_int api bs stats :
  fetch_batches py_int api bs stats
  = match all_present (map (batch_records py_int api) bs) with
    | Some rss => Some (stats ++ concat rss)
    | None => None
    end.
Proof.
  revert stats. induction bs as [|b bs IH]; intros stats; simpl.
  - rewrite app_nil_r. reflexivity.
  - unfold batch_records at 1.
    destruct (videos_list api (join_comma b)) as [e|[items|]]; try reflexivity.
    destruct (all_present (map (item_record py_int) items)) as [records|]; [|reflexivity].
    rewrite IH.
    destruct (all_present (map (batch_records py_int api) bs)) as [rss|]; [|reflexivity].
    simpl. rewrite app_assoc. reflexivity.
Qed.

Lemma batch_records_all py_int api bs itemss records :
  Forall2 (fun batch items => videos_list api (join_comma batch) = inr (Some items))
          bs itemss ->
  all_present (map (item_record py_int) (concat itemss)) = Some records ->
  exists rss,
    all_present (map (batch_records py_int api) bs) = Some rss /\ concat rss = records.
Proof.
  intros HF. revert records.
  induction HF as [|b items bs itemss Hb HF IH]; intros records Hrec.
  - simpl in *. injection Hrec as <-. exists []. split; reflexivity.
  - simpl in Hrec. rewrite map_app, all_present_app in Hrec.
    destruct (all_present (map (item_record py_int) items)) as [r1|] eqn:E1;
      [|discriminate].
    destruct (all_present (map (item_record py_int) (concat itemss))) as [r2|] eqn:E2;
      [|discriminate].
    injection Hrec as <-.
    destruct (IH r2 eq_refl) as (rss & Hrss & <-).
    exists (r1 :: rss). simpl. unfold batch_records at 1. rewrite Hb, E1, Hrss.
    split; reflexivity.
Qed.

(** X15. [get_video_details] is all or nothing.  When every batch is
    answered and every item of every answer can be turned into a record, the
    result is the records of the answers, batch after batch, one per item.
    When the request of one batch fails, or one item of one answer cannot be
    turned into a record, the result is the empty list, whatever the other
    batches gave. *)
Theorem get_video_details_all_or_nothing py_int api (video_ids : list string) :
  (forall itemss,
      Forall2 (fun batch items => videos_list api (join_comma batch) = inr (Some items))
              (batches video_ids) itemss ->
      forall records,
      all_present (map (item_record py_int) (concat itemss)) = Some records ->
      get_video_details py_int api video_ids = records
      /\ length records = length (concat itemss))
  /\ (forall batch, In batch (batches video_ids) ->
      batch_records py_int api batch = None ->
      get_video_details py_int api video_ids = []).
Proof.
  unfold get_video_details. rewrite fetch_batches_spec. split.
  - intros itemss HF records Hrec.
    split; [|rewrite (all_present_length _ _ Hrec), length_map; reflexivity].
    destruct (batch_records_all py_int api _ _ _ HF Hrec) as (rss & -> & <-).
    reflexivity.
  - intros b Hb Hnone.
    rewrite all_present_In; [reflexivity|].
    apply in_map_iff. exists b. split; assumption.
Qed.

Lemma get_video_details_all_or_nothing_witness :
  (get_video_details sample_int sample_api ["a"; "b"; "c"]%string
   = [ {| video_id := "a"; title := "SQL Tutorial a"; views := 1000; likes := 50;
          comments := 5; duration := "PT15M30S";
          published := "2023-05-17T14:00:09Z"; description := ""; tags := [] |};
       {| video_id := "b"; title := "SQL Tutorial b"; views := 0; likes := 0;
          comments := 0; duration := "PT15M30S";
          published := "2023-05-17T14:00:09Z"; description := ""; tags := [] |};
       {| video_id := "c"; title := "SQL Tutorial c"; views := 20; likes := 0;
          comments := 0; duration := "PT15M30S";
          published := "2023-05-17T14:00:09Z"; description := ""; tags := [] |} ]%string)
  /\ get_video_details sample_int sample_api ["a"; "b"]%string = [].
Proof.
  split.
  - refine (proj1 (proj1 (get_video_details_all_or_nothing sample_int sample_api
                            ["a"; "b"; "c"]%string)
                     [_] _ _ _)).
    + constructor; [reflexivity|constructor].
    + reflexivity.
  - apply (proj2 (get_video_details_all_or_nothing sample_int sample_api
                    ["a"; "b"]%string) ["a"; "b"]%string).
    + left. reflexivity.
    + reflexivity.
Defined.

Lemma loop_along_path api pl tok pages tok' fuel acc :
  page_path api pl tok pages tok' ->
  get_all_video_ids_loop (length pages + fuel) api pl tok acc
  = match all_present (map page_ids pages) with
    | Some idss => get_all_video_ids_loop fuel api pl tok' (acc ++ concat idss)
    | None => Some []
    end.
Proof.
  intros HP. revert acc.
  induction HP as [tok|tok page pages tok' Hpage Hnext HP IH]; intros acc; simpl.
  - rewrite app_nil_r. reflexivity.
  - rewrite Hpage. fold (page_ids page).
    destruct (page_ids page) as [ids|]; [|reflexivity].
    rewrite Hnext, IH.
    destruct (all_present (map page_ids pages)) as [idss|]; [|reflexivity].
    simpl. rewrite app_assoc. reflexivity.
Qed.

(** X16. [get_all_video_ids] follows the page tokens.  When the pages are
    served one after the other until one has no next token (or an empty
    one), then with enough requests allowed the result is the ids of all the
    pages in order, the last one included; it is the empty list when an item
    of one of them lacks its id. *)
Theorem get_all_video_ids_follows_pages api playlist_id pages token last fuel :
  page_path api playlist_id None pages token ->
  playlist_items_list api playlist_id token = inr last ->
  falsy (page_next last) = true ->
  (length pages < fuel)%nat ->
  get_all_video_ids fuel api playlist_id = Some (ids_of_pages (pages ++ [last])).
Proof.
  intros HP Hlast Hend Hfuel. unfold get_all_video_ids, ids_of_pages.
  replace fuel with (length pages + S (fuel - S (length pages)))%nat by lia.
  rewrite (loop_along_path _ _ _ _ _ _ _ HP), map_app, all_present_app.
  destruct (all_present (map page_ids pages)) as [idss|]; [|reflexivity].
  simpl. rewrite Hlast. fold (page_ids last).
  destruct (page_ids last) as [ids|]; [|reflexivity].
  rewrite Hend, concat_app. simpl. rewrite app_nil_r. reflexivity.
Qed.

Lemma get_all_video_ids_follows_pages_witness :
  get_all_video_ids 5 sample_api "UU1" = Some ["a"; "b"; "c"]%string.
Proof.
  apply (get_all_video_ids_follows_pages sample_api "UU1"
           [ {| page_items := Some [Some "a"; Some "b"]%string;
                page_next := Some "p2"%string |} ]
           (Some "p2"%string)
           {| page_items := Some [Some "c"%string]; page_next := None |} 5%nat).
  - eapply path_cons; [reflexivity|reflexivity|apply path_nil].
  - reflexivity.
  - reflexivity.
  - simpl. lia.
Defined.

(** X17. An exception on any page discards the ids of the pages fetched
    before it: the result is the empty list, not the ids gathered so far. *)
Theorem get_all_video_ids_exception_discards api playlist_id pages token e fuel :
  page_path api playlist_id None pages token ->
  playlist_items_list api playlist_id token = inl e ->
  (length pages < fuel)%nat ->
  get_all_video_ids fuel api playlist_id = Some [].
Proof.
  intros HP Hraise Hfuel. unfold get_all_video_ids.
  replace fuel with (length pages + S (fuel - S (length pages)))%nat by lia.
  rewrite (loop_along_path _ _ _ _ _ _ _ HP).
  destruct (all_present (map page_ids pages)) as [idss|]; [|reflexivity].
  simpl. rewrite Hraise. reflexivity.
Qed.

Lemma get_all_video_ids_exception_discards_witness :
  get_all_video_ids 5 failing_api "UU1" = Some [].
Proof.
  apply (get_all_video_ids_exception_discards failing_api "UU1"
           [ {| page_items := Some [Some "a"; Some "b"]%string;
                page_next := Some "p2"%string |} ]
           (Some "p2"%string) (LibraryError "HttpError") 5%nat).
  - eapply path_cons; [reflexivity|reflexivity|apply path_nil].
  - reflexivity.
  - simpl. lia.
Defined.

(** X18. The loop of [get_all_video_ids] has no bound of its own: against
    a playlist whose every page has its ids and names a next page, no number
    of requests brings it to an end. *)
Theorem get_all_video_ids_endless api playlist_id :
  (forall token, exists page,
      playlist_items_list api playlist_id token = inr page
      /\ page_ids page <> None
      /\ falsy (page_next page) = false) ->
  forall fuel, get_all_video_ids fuel api playlist_id = None.
Proof.
  intros Hall fuel. unfold get_all_video_ids.
  generalize (@None string) as tok. generalize (@nil string) as acc.
  induction fuel as [|fuel IH]; intros acc tok; simpl; [reflexivity|].
  destruct (Hall tok) as (page & Hpage & Hids & Hnext).
  rewrite Hpage. fold (page_ids page).
  destruct (page_ids page) as [ids|]; [|congruence].
  rewrite Hnext. apply IH.
Qed.

Lemma get_all_video_ids_endless_witness :
  get_all_video_ids 1000 endless_api "UU1" = None.
Proof.
  refine (get_all_video_ids_endless endless_api "UU1" _ 1000%nat).
  intros token. eexists. split; [reflexivity|]. split; [discriminate|reflexivity].
Defined.



(** X20. A failure in any stage of the extraction makes [main] return
    before the processing step, with nothing processed: when the channel
    request raises, when a page of the playlist raises after any number of
    pages were fetched, and when one batch of details fails after any
    number of batches were fetched. *)
Theorem extract_stops_on_failure fuel py_int api channel_id :
  (forall e, channels_list api channel_id = inl e ->
      extract fuel py_int api channel_id = Some None)
  /\ (forall playlist_id pages token e,
      get_upload_playlist_id api channel_id = Some playlist_id ->
      page_path api playlist_id None pages token ->
      playlist_items_list api playlist_id token = inl e ->
      (length pages < fuel)%nat ->
      extract fuel py_int api channel_id = Some None)
  /\ (forall playlist_id video_ids batch,
      get_upload_playlist_id api channel_id = Some playlist_id ->
      get_all_video_ids fuel api playlist_id = Some video_ids ->
      In batch (batches video_ids) ->
      batch_records py_int api batch = None ->
      extract fuel py_int api channel_id = Some None).
Proof.
  split; [|split].
  - intros e He. unfold extract, get_upload_playlist_id. rewrite He. reflexivity.
  - intros pl pages tok e Hpl HP Hraise Hfuel. unfold extract. rewrite Hpl.
    destruct (String.eqb pl EmptyString); [reflexivity|].
    unfold get_all_video_ids.
    replace fuel with (length pages + S (fuel - S (length pages)))%nat by lia.
    rewrite (loop_along_path _ _ _ _ _ _ _ HP).
    destruct (all_present (map page_ids pages)) as [idss|]; [|reflexivity].
    simpl. rewrite Hraise. reflexivity.
  - intros pl ids b Hpl Hids Hb Hnone. unfold extract. rewrite Hpl, Hids.
    destruct (String.eqb pl EmptyString); [reflexivity|].
    destruct ids as [|id ids]; [reflexivity|].
    unfold get_video_details. rewrite fetch_batches_spec, all_present_In; [reflexivity|].
    apply in_map_iff. exists b. split; assumption.
Qed.

Lemma extract_stops_on_failure_witness :
  extract 5 sample_int failing_api "UC1" = Some None
  /\ extract 5 (fun _ => None) sample_api "UC1" = Some None.
Proof.
  split.
  - apply (proj1 (proj2 (extract_stops_on_failure 5 sample_int failing_api "UC1"))
             "UU1"%string
             [ {| page_items := Some [Some "a"; Some "b"]%string;
                  page_next := Some "p2"%string |} ]
             (Some "p2"%string) (LibraryError "HttpError")).
    + reflexivity.
    + eapply path_cons; [reflexivity|reflexivity|apply path_nil].
    + reflexivity.
    + simpl. lia.
  - apply (proj2 (proj2 (extract_stops_on_failure 5 (fun _ => None) sample_api "UC1"))
             "UU1"%string ["a"; "b"; "c"]%string ["a"; "b"; "c"]%string).
    + reflexivity.
    + reflexivity.
    + left. reflexivity.
    + reflexivity.
Defined.






End Extraction.

(* ===================================================================== *)
(** * Further properties: the ANOVA across categories *)
(* ===================================================================== *)

Section CategoryGroups.
Import YouTubeAnalytics.

Lemma unique_In x l : In x (Pandas.unique l) <-> In x l.
Proof.
  induction l as [|a l IH]; simpl; [reflexivity|].
  rewrite filter_In, IH. split.
  - intros [H|[H _]]; auto.
  - intros [H|H]; [auto|].
    destruct (String.eqb_spec x a) as [->|Hne]; [auto|].
    right. split; [exact H|reflexivity].
Qed.

Lemma unique_NoDup l : List.NoDup (Pandas.unique l).
Proof.
  induction l as [|a l IH]; simpl; constructor.
  - rewrite filter_In. intros [_ H]. rewrite String.eqb_refl in H. discriminate.
  - apply List.NoDup_filter, IH.
Qed.

Lemma mapM_ret {A B} (f : A -> Prog B) (g : A -> B) l :
  (forall x, f x = Ret (g x)) -> mapM f l = Ret (map g l).
Proof.
  intros H. induction l as [|x l IH]; simpl; [reflexivity|].
  rewrite H, IH. reflexivity.
Qed.

Lemma category_groups_partition (ks cats : list string) (vs : list Z) :
  List.NoDup ks ->
  Permutation
    (concat (map (fun c => category_views c cats vs) ks))
    (Pandas.select (map (fun x => existsb (String.eqb x) ks) cats) vs).
Proof.
  induction ks as [|k ks IH]; intros Hnd; simpl.
  - replace (map (fun _ : string => false) cats) with (repeat false (length cats)).
    + rewrite select_none. reflexivity.
    + induction cats; simpl; congruence.
  - inversion Hnd as [|? ? Hk Hnd']; subst. rewrite (IH Hnd'). unfold category_views.
    rewrite select_or.
    + rewrite zip_with_map. reflexivity.
    + rewrite !length_map. reflexivity.
    + clear IH. induction cats as [|d cats IHd]; simpl; constructor; [|exact IHd].
      destruct (String.eqb_spec d k) as [->|_]; [|reflexivity]. simpl.
      destruct (existsb (String.eqb k) ks) eqn:E; [|reflexivity].
      exfalso. apply Hk. apply existsb_exists in E as (x & Hx & Ex).
      apply String.eqb_eq in Ex. subst x. exact Hx.
Qed.

Lemma select_whole {A} (mask : list bool) (vs : list A) :
  length mask = length vs -> Forall (fun b => b = true) mask ->
  Pandas.select mask vs = vs.
Proof.
  intros Hlen Hall. revert vs Hlen.
  induction Hall as [|b mask Hb Hall IH]; intros [|v vs] Hlen; simpl in *;
    try discriminate; [reflexivity|].
  rewrite Hb, IH by congruence. reflexivity.
Qed.

Lemma category_group_nonempty c cats (vs : list Z) :
  length cats = length vs -> In c cats -> category_views c cats vs <> [].
Proof.
  unfold category_views. revert vs.
  induction cats as [|a cats IH]; intros [|v vs] Hlen Hin; simpl in *;
    try discriminate; try contradiction.
  destruct (String.eqb_spec a c) as [_|Hne]; [discriminate|].
  destruct Hin as [->|Hin]; [congruence|]. apply IH; [congruence|exact Hin].
Qed.

(** X22. The ANOVA across categories in [compare_video_categories] gets
    one sample per category that occurs in the table, in the order of first
    appearance, each category once; no sample is empty, and together the
    samples are a rearrangement of the [views] column.  It is the only
    library call made. *)
Theorem category_anova_groups (h : handler) df cats vs :
  df_columns df !! "category" = Some (SStr cats) ->
  df_columns df !! "views" = Some (SInt vs) ->
  length cats = length vs ->
  let groups := map (fun c => category_views c cats vs) (Pandas.unique cats) in
  trace h (category_anova df) = [Called (f_oneway groups)]
  /\ run h (category_anova df) = h _ (f_oneway groups)
  /\ List.NoDup (Pandas.unique cats)
  /\ (forall c, In c (Pandas.unique cats) <-> In c cats)
  /\ Forall (fun g => g <> []) groups
  /\ Permutation (concat groups) vs.
Proof.
  intros Hc Hv Hlen groups.
  assert (Hprog : category_anova df = call (f_oneway groups)).
  { unfold category_anova, category_groups, Pandas.column. rewrite Hc. cbn [bind Pandas.as_str].
    rewrite (mapM_ret _ (fun c => category_views c cats vs)).
    - reflexivity.
    - intros c. rewrite (where_str_eq _ _ _ _ Hc). cbn [bind].
      apply (int_values_select _ _ _ _ Hv). }
  rewrite Hprog. unfold call. cbn [trace run].
  split; [destruct (h _ (f_oneway groups)); reflexivity|].
  split; [destruct (h _ (f_oneway groups)); reflexivity|].
  split; [apply unique_NoDup|].
  split; [intros c; apply unique_In|].
  split.
  - apply Forall_forall. intros g Hg. apply list_elem_of_In, in_map_iff in Hg.
    destruct Hg as (c & <- & Hin). apply category_group_nonempty; [exact Hlen|].
    apply unique_In, Hin.
  - subst groups. rewrite category_groups_partition by apply unique_NoDup.
    rewrite select_whole; [reflexivity|rewrite length_map; exact Hlen|].
    apply Forall_forall. intros b Hb. apply list_elem_of_In, in_map_iff in Hb.
    destruct Hb as (x & <- & Hx).
    apply existsb_exists. exists x. split; [apply unique_In, Hx|apply String.eqb_refl].
Qed.

Lemma category_anova_groups_witness :
  let groups := map (fun c => category_views c
                                (repeat "Tutorial"%string 10 ++ repeat "Career"%string 10)
                                (repeat 11 9 ++ [1] ++ repeat 10 10))
                    (Pandas.unique (repeat "Tutorial"%string 10 ++ repeat "Career"%string 10)) in
  trace sample_library (category_anova tie_table) = [Called (f_oneway groups)]
  /\ Forall (fun g => g <> []) groups
  /\ Permutation (concat groups) (repeat 11 9 ++ [1] ++ repeat 10 10).
Proof.
  destruct (category_anova_groups sample_library tie_table
              (repeat "Tutorial"%string 10 ++ repeat "Career"%string 10)
              (repeat 11 9 ++ [1] ++ repeat 10 10) eq_refl eq_refl eq_refl)
    as (Ht & _ & _ & _ & Hne & Hp).
  split; [exact Ht|]. split; [exact Hne|exact Hp].
Defined.

End CategoryGroups.
